(** * Stripe webhook reconciliation of better-saas

    A shallow embedding of the webhook route documented in
    [content/docs/en/features/payment-billing.mdx]
    ([src/app/api/webhooks/stripe/route.ts]) together with the part of
    [src/server/db/schema.ts] it writes to.

    - A [Date] is its number of milliseconds since the epoch.
    - The three tables are lists of rows, in insertion order.
    - The route is asynchronous code with exceptions, a console and a
      database connection: it is embedded in a reader/state/error monad [M]
      whose state records the tables, the console and the statements sent
      to the database.
    - The Stripe SDK is a collaborator: the client [stripe], with its
      [constructEvent], is a variable of the section that holds the route.
    - The database driver is a collaborator too: it applies the statement it
      is sent or raises, as the runtime of the request says. *)

From Stdlib Require Import ZArith List String Bool Lia.
Import ListNotations.

Local Open Scope string_scope.
Local Open Scope Z_scope.
Local Open Scope list_scope.

(** ** Schema ([src/server/db/schema.ts]) *)

Definition Date : Type := Z.

(** [new Date(ms)] *)
Definition new_Date (ms : Z) : Date := ms.

Module subscriptions.
Record row : Type := {
  id : string;
  userId : string;
  stripeSubscriptionId : option string;
  stripeCustomerId : option string;
  stripePriceId : option string;
  status : string;
  planId : string;
  currentPeriodStart : option Date;
  currentPeriodEnd : option Date;
  cancelAtPeriodEnd : option bool;
  createdAt : Date;
  updatedAt : Date
}.
End subscriptions.

Module invoices.
Record row : Type := {
  id : string;
  userId : string;
  subscriptionId : option string;
  stripeInvoiceId : option string;
  amount : Z;
  currency : string;
  status : string;
  hostedInvoiceUrl : option string;
  invoicePdf : option string;
  createdAt : Date
}.
End invoices.

Module paymentMethods.
Record row : Type := {
  id : string;
  userId : string;
  stripePaymentMethodId : string;
  type : string;
  brand : option string;
  last4 : option string;
  expiryMonth : option Z;
  expiryYear : option Z;
  isDefault : option bool;
  createdAt : Date
}.
End paymentMethods.

Record Database : Type := {
  subscriptions_table : list subscriptions.row;
  invoices_table : list invoices.row;
  paymentMethods_table : list paymentMethods.row
}.

(** ** Stripe objects read by the handlers

    The handlers take [event.data.object] as [any]; these are the fields
    they read.  Epoch seconds are integers. *)

Module Subscription.
Record t : Type := {
  id : string;
  status : string;
  current_period_start : Z;
  current_period_end : Z;
  cancel_at_period_end : bool
}.
End Subscription.

Module Invoice.
Record t : Type := {
  id : string;
  customer : string;
  amount_paid : Z;
  currency : string;
  hosted_invoice_url : option string;
  invoice_pdf : option string
}.
End Invoice.

Inductive StripeObject : Type :=
| SubscriptionObject (s : Subscription.t)
| InvoiceObject (i : Invoice.t)
| OtherObject (id : string).

(** [object.id]: every Stripe object has one. *)
Definition object_id (o : StripeObject) : string :=
  match o with
  | SubscriptionObject s => Subscription.id s
  | InvoiceObject i => Invoice.id i
  | OtherObject id => id
  end.

Record Event : Type := {
  type : string;
  data_object : StripeObject
}.

(** ** Exceptions, console, statements *)

Inductive Exn : Type :=
| StripeSignatureVerificationError (message : string)
| DatabaseError (message : string)
| TypeError (message : string).

Inductive ConsoleEntry : Type :=
| console_error_entry (label : string) (error : Exn)
| console_log_entry (args : list string).

Inductive Table : Type := T_subscriptions | T_invoices | T_paymentMethods.

Inductive Statement : Type :=
| Select (t : Table)
| Insert (t : Table)
| Update (t : Table)
| Delete (t : Table).

(** ** The monad of the route *)

(** What the runtime supplies to one request: the clock read by
    [new Date()], the value of [crypto.randomUUID()], the environment
    variable, and whether the database driver raises on the statement it is
    sent (connection loss, or a constraint other than the conflict target of
    an upsert). *)
Record Runtime : Type := {
  now : Date;
  randomUUID : string;
  STRIPE_WEBHOOK_SECRET : option string;
  db_fault : option string
}.

Record World : Type := {
  db : Database;
  console : list ConsoleEntry;
  issued : list Statement
}.

Inductive Outcome (A : Type) : Type :=
| Ok (a : A)
| Throw (e : Exn).
Arguments Ok {A} a.
Arguments Throw {A} e.

Definition M (A : Type) : Type := Runtime -> World -> Outcome A * World.

Definition ret {A} (a : A) : M A := fun _ w => (Ok a, w).

Definition bind {A B} (m : M A) (k : A -> M B) : M B :=
  fun rt w =>
    match m rt w with
    | (Ok a, w') => k a rt w'
    | (Throw e, w') => (Throw e, w')
    end.

Definition throw {A} (e : Exn) : M A := fun _ w => (Throw e, w).

(** [try { m } catch (error) { h error }] *)
Definition try_catch {A} (m : M A) (h : Exn -> M A) : M A :=
  fun rt w =>
    match m rt w with
    | (Ok a, w') => (Ok a, w')
    | (Throw e, w') => h e rt w'
    end.

Declare Scope route_scope.
Delimit Scope route_scope with route.
Notation "x <- m ;; k" := (bind m (fun x => k))
  (at level 100, m at next level, right associativity) : route_scope.
Notation "m ;;; k" := (bind m (fun _ => k))
  (at level 100, right associativity) : route_scope.
Local Open Scope route_scope.

Definition ask : M Runtime := fun rt w => (Ok rt, w).

(** [new Date()] *)
Definition new_Date_now : M Date := fun rt w => (Ok (new_Date (now rt)), w).

(** [crypto.randomUUID()] *)
Definition crypto_randomUUID : M string := fun rt w => (Ok (randomUUID rt), w).

Definition console_error (label : string) (error : Exn) : M unit :=
  fun _ w =>
    (Ok tt, {| db := db w;
               console := console w ++ [console_error_entry label error];
               issued := issued w |}).

Definition console_log (args : list string) : M unit :=
  fun _ w =>
    (Ok tt, {| db := db w;
               console := console w ++ [console_log_entry args];
               issued := issued w |}).

(** [await db. ...]: the statement is sent once; the driver either raises,
    leaving the tables as they were, or applies it. *)
Definition db_execute (stmt : Statement) (apply : Database -> Database) : M unit :=
  fun rt w =>
    let sent := issued w ++ [stmt] in
    match db_fault rt with
    | Some message =>
        (Throw (DatabaseError message),
         {| db := db w; console := console w; issued := sent |})
    | None =>
        (Ok tt, {| db := apply (db w); console := console w; issued := sent |})
    end.

(** ** Query builder *)

(** [eq(column, value)] on a nullable text column: NULL matches nothing. *)
Definition eq_col (value : string) (cell : option string) : bool :=
  match cell with
  | Some v => String.eqb v value
  | None => false
  end.

(** [UPDATE ... SET ... WHERE ...] *)
Definition update_where {R} (where_ : R -> bool) (set : R -> R) (rows : list R) : list R :=
  map (fun r => if where_ r then set r else r) rows.

(** [INSERT ... ON CONFLICT (target) DO UPDATE SET ...]: the proposed row is
    appended unless a stored row conflicts with it on the target column, in
    which case the conflicting row is updated. *)
Definition insert_on_conflict_do_update {R}
    (conflicts : R -> bool) (proposed : R) (set : R -> R) (rows : list R) : list R :=
  if existsb conflicts rows
  then update_where conflicts set rows
  else rows ++ [proposed].

(** ** HTTP *)

Inductive Json : Type :=
| json_received (received : bool)    (* { received: ... } *)
| json_error (error : string).       (* { error: ... } *)

Record NextResponse : Type := {
  body : Json;
  status : Z
}.

(** [NextResponse.json(body)] answers 200; [NextResponse.json(body, { status })]
    answers [status]. *)
Definition NextResponse_json (b : Json) (init : option Z) : NextResponse :=
  {| body := b; status := match init with Some s => s | None => 200 end |}.

Record NextRequest : Type := {
  text : string;                       (* await req.text() *)
  headers : list (string * string)     (* headers(), names in lower case *)
}.

(** [headers().get(name)] *)
Fixpoint headers_get (name : string) (hs : list (string * string)) : option string :=
  match hs with
  | [] => None
  | (n, v) :: hs' => if String.eqb n name then Some v else headers_get name hs'
  end.

(** ** The Stripe client ([@/payment/stripe/client]) *)

Record Stripe : Type := {
  (** [stripe.webhooks.constructEvent(body, signature, secret)] returns the
      decoded event or throws. *)
  constructEvent : string -> option string -> option string -> Exn + Event
}.

(** ** Projection of the handlers' [any] argument

    Reading a field that the object does not have gives [undefined], which
    neither [new Date] nor the insert can use: the read is where the model
    raises. *)
Definition as_subscription (o : StripeObject) : M Subscription.t :=
  match o with
  | SubscriptionObject s => ret s
  | _ => throw (TypeError "not a subscription")
  end.

Definition as_invoice (o : StripeObject) : M Invoice.t :=
  match o with
  | InvoiceObject i => ret i
  | _ => throw (TypeError "not an invoice")
  end.

(** ** Handlers *)

(** The [.set({...})] of [handleSubscriptionUpdate]. *)
Definition set_subscription_update (subscription : Subscription.t) (updatedAt : Date)
    (r : subscriptions.row) : subscriptions.row :=
  {| subscriptions.id := subscriptions.id r;
     subscriptions.userId := subscriptions.userId r;
     subscriptions.stripeSubscriptionId := subscriptions.stripeSubscriptionId r;
     subscriptions.stripeCustomerId := subscriptions.stripeCustomerId r;
     subscriptions.stripePriceId := subscriptions.stripePriceId r;
     subscriptions.status := Subscription.status subscription;
     subscriptions.planId := subscriptions.planId r;
     subscriptions.currentPeriodStart :=
       Some (new_Date (Subscription.current_period_start subscription * 1000));
     subscriptions.currentPeriodEnd :=
       Some (new_Date (Subscription.current_period_end subscription * 1000));
     subscriptions.cancelAtPeriodEnd := Some (Subscription.cancel_at_period_end subscription);
     subscriptions.createdAt := subscriptions.createdAt r;
     subscriptions.updatedAt := updatedAt |}.

(** The [.set({...})] of [handleSubscriptionDeleted]. *)
Definition set_subscription_canceled (updatedAt : Date)
    (r : subscriptions.row) : subscriptions.row :=
  {| subscriptions.id := subscriptions.id r;
     subscriptions.userId := subscriptions.userId r;
     subscriptions.stripeSubscriptionId := subscriptions.stripeSubscriptionId r;
     subscriptions.stripeCustomerId := subscriptions.stripeCustomerId r;
     subscriptions.stripePriceId := subscriptions.stripePriceId r;
     subscriptions.status := "canceled";
     subscriptions.planId := subscriptions.planId r;
     subscriptions.currentPeriodStart := subscriptions.currentPeriodStart r;
     subscriptions.currentPeriodEnd := subscriptions.currentPeriodEnd r;
     subscriptions.cancelAtPeriodEnd := subscriptions.cancelAtPeriodEnd r;
     subscriptions.createdAt := subscriptions.createdAt r;
     subscriptions.updatedAt := updatedAt |}.

(** [.where(eq(subscriptions.stripeSubscriptionId, id))] *)
Definition where_stripeSubscriptionId (id : string) (r : subscriptions.row) : bool :=
  eq_col id (subscriptions.stripeSubscriptionId r).

Definition on_subscriptions (f : list subscriptions.row -> list subscriptions.row)
    (d : Database) : Database :=
  {| subscriptions_table := f (subscriptions_table d);
     invoices_table := invoices_table d;
     paymentMethods_table := paymentMethods_table d |}.

Definition on_invoices (f : list invoices.row -> list invoices.row)
    (d : Database) : Database :=
  {| subscriptions_table := subscriptions_table d;
     invoices_table := f (invoices_table d);
     paymentMethods_table := paymentMethods_table d |}.

Definition handleSubscriptionUpdate (subscription_any : StripeObject) : M unit :=
  subscription <- as_subscription subscription_any ;;
  updatedAt <- new_Date_now ;;
  db_execute (Update T_subscriptions)
    (on_subscriptions
       (update_where (where_stripeSubscriptionId (Subscription.id subscription))
          (set_subscription_update subscription updatedAt))).

Definition handleSubscriptionDeleted (subscription_any : StripeObject) : M unit :=
  updatedAt <- new_Date_now ;;
  db_execute (Update T_subscriptions)
    (on_subscriptions
       (update_where (where_stripeSubscriptionId (object_id subscription_any))
          (set_subscription_canceled updatedAt))).

(** [createdAt: timestamp(...).defaultNow()]: the database's clock, taken to
    be the runtime's. *)
Definition defaultNow : M Date := new_Date_now.

(** The [.values({...})] of [handleInvoicePaymentSucceeded]; the columns it
    leaves out take their defaults: [subscriptionId] is NULL and [createdAt]
    is [defaultNow()]. *)
Definition invoice_values (uuid : string) (invoice : Invoice.t) (created : Date)
    : invoices.row :=
  {| invoices.id := uuid;
     invoices.userId := Invoice.customer invoice;
     invoices.subscriptionId := None;
     invoices.stripeInvoiceId := Some (Invoice.id invoice);
     invoices.amount := Invoice.amount_paid invoice;
     invoices.currency := Invoice.currency invoice;
     invoices.status := "paid";
     invoices.hostedInvoiceUrl := Invoice.hosted_invoice_url invoice;
     invoices.invoicePdf := Invoice.invoice_pdf invoice;
     invoices.createdAt := created |}.

(** The [set: {...}] of its [.onConflictDoUpdate]. *)
Definition set_invoice_paid (invoice : Invoice.t) (r : invoices.row) : invoices.row :=
  {| invoices.id := invoices.id r;
     invoices.userId := invoices.userId r;
     invoices.subscriptionId := invoices.subscriptionId r;
     invoices.stripeInvoiceId := invoices.stripeInvoiceId r;
     invoices.amount := invoices.amount r;
     invoices.currency := invoices.currency r;
     invoices.status := "paid";
     invoices.hostedInvoiceUrl := Invoice.hosted_invoice_url invoice;
     invoices.invoicePdf := Invoice.invoice_pdf invoice;
     invoices.createdAt := invoices.createdAt r |}.

(** [target: invoices.stripeInvoiceId] *)
Definition conflict_stripeInvoiceId (id : string) (r : invoices.row) : bool :=
  eq_col id (invoices.stripeInvoiceId r).

Definition handleInvoicePaymentSucceeded (invoice_any : StripeObject) : M unit :=
  invoice <- as_invoice invoice_any ;;
  uuid <- crypto_randomUUID ;;
  created <- defaultNow ;;
  db_execute (Insert T_invoices)
    (on_invoices
       (insert_on_conflict_do_update
          (conflict_stripeInvoiceId (Invoice.id invoice))
          (invoice_values uuid invoice created)
          (set_invoice_paid invoice))).

Definition handleInvoicePaymentFailed (invoice_any : StripeObject) : M unit :=
  console_log ["Payment failed for invoice:"; object_id invoice_any].

(** ** The route *)

Section Route.

Variable stripe : Stripe.

(** The [switch (event.type)] of [POST]. *)
Definition dispatch (event : Event) : M unit :=
  let t := type event in
  if String.eqb t "customer.subscription.created"
     || String.eqb t "customer.subscription.updated"
  then handleSubscriptionUpdate (data_object event)
  else if String.eqb t "customer.subscription.deleted"
  then handleSubscriptionDeleted (data_object event)
  else if String.eqb t "invoice.payment_succeeded"
  then handleInvoicePaymentSucceeded (data_object event)
  else if String.eqb t "invoice.payment_failed"
  then handleInvoicePaymentFailed (data_object event)
  else console_log [String.append "Unhandled event type: " t].

(** The first [try]: decode the event or answer 400. *)
Definition verify (req : NextRequest) : M (NextResponse + Event) :=
  let body := text req in
  let signature := headers_get "stripe-signature" (headers req) in
  try_catch
    (rt <- ask ;;
     match constructEvent stripe body signature (STRIPE_WEBHOOK_SECRET rt) with
     | inr event => ret (inr event)
     | inl error => throw error
     end)
    (fun error =>
       console_error "Webhook signature verification failed:" error ;;;
       ret (inl (NextResponse_json (json_error "Invalid signature") (Some 400)))).

Definition POST (req : NextRequest) : M NextResponse :=
  r <- verify req ;;
  match r with
  | inl response => ret response
  | inr event =>
      try_catch
        (dispatch event ;;;
         ret (NextResponse_json (json_received true) None))
        (fun error =>
           console_error "Webhook handler error:" error ;;;
           ret (NextResponse_json (json_error "Webhook handler failed") (Some 500)))
  end.

End Route.

(** ** Test doubles *)

(** A Stripe client for examples: it knows the events of a table indexed by
    request body, and accepts the one signature ["v1=good"] under the secret
    ["whsec_test"]. *)
Fixpoint lookup_event (b : string) (known : list (string * Event)) : option Event :=
  match known with
  | [] => None
  | (b', e) :: known' => if String.eqb b' b then Some e else lookup_event b known'
  end.

Definition stub_stripe (known : list (string * Event)) : Stripe :=
  {| constructEvent := fun b signature secret =>
       match signature, secret with
       | Some "v1=good", Some "whsec_test" =>
           match lookup_event b known with
           | Some e => inr e
           | None => inl (StripeSignatureVerificationError "no such payload")
           end
       | _, _ => inl (StripeSignatureVerificationError "signature mismatch")
       end |}.

Definition signed (b : string) : NextRequest :=
  {| text := b; headers := [("content-type", "application/json"); ("stripe-signature", "v1=good")] |}.

Definition tampered (b : string) : NextRequest :=
  {| text := b; headers := [("stripe-signature", "v1=evil")] |}.

Definition runtime_at (t : Date) (uuid : string) : Runtime :=
  {| now := t; randomUUID := uuid;
     STRIPE_WEBHOOK_SECRET := Some "whsec_test"; db_fault := None |}.

Definition runtime_down (t : Date) (uuid : string) : Runtime :=
  {| now := t; randomUUID := uuid;
     STRIPE_WEBHOOK_SECRET := Some "whsec_test";
     db_fault := Some "connection terminated" |}.

Definition empty_db : Database :=
  {| subscriptions_table := []; invoices_table := []; paymentMethods_table := [] |}.

Definition boot (d : Database) : World :=
  {| db := d; console := []; issued := [] |}.

Definition sub_1 : Subscription.t :=
  {| Subscription.id := "sub_1"; Subscription.status := "active";
     Subscription.current_period_start := 1700000000; Subscription.current_period_end := 1702592000;
     Subscription.cancel_at_period_end := false |}.

Definition in_123 : Invoice.t :=
  {| Invoice.id := "in_123"; Invoice.customer := "cus_9"; Invoice.amount_paid := 999;
     Invoice.currency := "usd"; Invoice.hosted_invoice_url := Some "https://x";
     Invoice.invoice_pdf := Some "https://y" |}.

Definition known_events : list (string * Event) :=
  [ ("created", {| type := "customer.subscription.created";
                   data_object := SubscriptionObject sub_1 |});
    ("updated", {| type := "customer.subscription.updated";
                   data_object := SubscriptionObject sub_1 |});
    ("deleted", {| type := "customer.subscription.deleted";
                   data_object := SubscriptionObject sub_1 |});
    ("paid", {| type := "invoice.payment_succeeded";
                data_object := InvoiceObject in_123 |});
    ("failed", {| type := "invoice.payment_failed";
                  data_object := InvoiceObject in_123 |});
    ("checkout", {| type := "checkout.session.completed";
                    data_object := OtherObject "cs_1" |}) ].

Definition test_stripe : Stripe := stub_stripe known_events.

(** The row that [createSubscription] stores for ["sub_1"]. *)
Definition row_sub_1 : subscriptions.row :=
  {| subscriptions.id := "7d0c"; subscriptions.userId := "user_1";
     subscriptions.stripeSubscriptionId := Some "sub_1";
     subscriptions.stripeCustomerId := Some "cus_9";
     subscriptions.stripePriceId := Some "price_pro_monthly";
     subscriptions.status := "incomplete"; subscriptions.planId := "pro";
     subscriptions.currentPeriodStart := Some 1700000000000;
     subscriptions.currentPeriodEnd := Some 1702592000000;
     subscriptions.cancelAtPeriodEnd := Some false;
     subscriptions.createdAt := 1700000000123;
     subscriptions.updatedAt := 1700000000123 |}.

Definition db_with_sub_1 : Database :=
  {| subscriptions_table := [row_sub_1]; invoices_table := [];
     paymentMethods_table := [] |}.

(** An open invoice stored for ["in_123"] before it is paid. *)
Definition row_in_123_open : invoices.row :=
  {| invoices.id := "51aa"; invoices.userId := "user_1";
     invoices.subscriptionId := Some "7d0c";
     invoices.stripeInvoiceId := Some "in_123";
     invoices.amount := 0; invoices.currency := "eur"; invoices.status := "open";
     invoices.hostedInvoiceUrl := None; invoices.invoicePdf := None;
     invoices.createdAt := 1700000000456 |}.

Definition db_with_in_123 : Database :=
  {| subscriptions_table := [row_sub_1]; invoices_table := [row_in_123_open];
     paymentMethods_table := [] |}.

(** ** What a request does *)

(** The request was verified and decoded to [event]. *)
Definition verified (stripe : Stripe) (req : NextRequest) (rt : Runtime) (event : Event) : Prop :=
  constructEvent stripe (text req) (headers_get "stripe-signature" (headers req))
    (STRIPE_WEBHOOK_SECRET rt) = inr event.

(** Verification of the request threw [error]. *)
Definition rejected (stripe : Stripe) (req : NextRequest) (rt : Runtime) (error : Exn) : Prop :=
  constructEvent stripe (text req) (headers_get "stripe-signature" (headers req))
    (STRIPE_WEBHOOK_SECRET rt) = inl error.

(** The world after the request. *)
Definition after (stripe : Stripe) (req : NextRequest) (rt : Runtime) (w : World) : World :=
  snd (POST stripe req rt w).

(** The status code of the answer, if the route answers. *)
Definition answer (stripe : Stripe) (req : NextRequest) (rt : Runtime) (w : World) : option Z :=
  match fst (POST stripe req rt w) with
  | Ok response => Some (status response)
  | Throw _ => None
  end.

Definition log (w : World) (entry : ConsoleEntry) : World :=
  {| db := db w; console := console w ++ [entry]; issued := issued w |}.

Definition response_200 : NextResponse := {| body := json_received true; status := 200 |}.
Definition response_400 : NextResponse := {| body := json_error "Invalid signature"; status := 400 |}.
Definition response_500 : NextResponse := {| body := json_error "Webhook handler failed"; status := 500 |}.

(** ** Predicates and relations of the statements below *)

Definition registry : list string :=
  [ "customer.subscription.created"; "customer.subscription.updated";
    "customer.subscription.deleted"; "invoice.payment_succeeded";
    "invoice.payment_failed" ].

Inductive Dispatched (event : Event) : M unit -> Prop :=
| to_update :
    type event = "customer.subscription.created"
    \/ type event = "customer.subscription.updated" ->
    Dispatched event (handleSubscriptionUpdate (data_object event))
| to_deleted :
    type event = "customer.subscription.deleted" ->
    Dispatched event (handleSubscriptionDeleted (data_object event))
| to_succeeded :
    type event = "invoice.payment_succeeded" ->
    Dispatched event (handleInvoicePaymentSucceeded (data_object event))
| to_failed :
    type event = "invoice.payment_failed" ->
    Dispatched event (handleInvoicePaymentFailed (data_object event))
| to_default :
    ~ In (type event) registry ->
    Dispatched event (console_log [String.append "Unhandled event type: " (type event)]).

Definition sent (w : World) (stmt : Statement) (d : Database) : World :=
  {| db := d; console := console w; issued := issued w ++ [stmt] |}.

(** The tables after [handleSubscriptionUpdate]'s statement. *)
Definition subscription_updated (s : Subscription.t) (t : Date) (d : Database) : Database :=
  on_subscriptions
    (update_where (where_stripeSubscriptionId (Subscription.id s)) (set_subscription_update s t)) d.

(** The tables after [handleSubscriptionDeleted]'s statement. *)
Definition subscription_canceled (id : string) (t : Date) (d : Database) : Database :=
  on_subscriptions
    (update_where (where_stripeSubscriptionId id) (set_subscription_canceled t)) d.

(** The tables after [handleInvoicePaymentSucceeded]'s statement. *)
Definition invoice_upserted (i : Invoice.t) (uuid : string) (t : Date) (d : Database)
    : Database :=
  on_invoices
    (insert_on_conflict_do_update (conflict_stripeInvoiceId (Invoice.id i))
       (invoice_values uuid i t) (set_invoice_paid i)) d.

(** What a handler can do to the world: nothing but a console line, an
    exception before any statement, or exactly one statement, applied or
    refused. *)
Inductive Effect (rt : Runtime) (w : World) : Outcome unit * World -> Prop :=
| effect_logged entry : Effect rt w (Ok tt, log w entry)
| effect_raised error : Effect rt w (Throw error, w)
| effect_applied stmt d :
    db_fault rt = None -> Effect rt w (Ok tt, sent w stmt d)
| effect_refused stmt message :
    db_fault rt = Some message ->
    Effect rt w (Throw (DatabaseError message), sent w stmt (db w)).

(** The handler of the event sends a statement to the database: the event
    is of one of the four registered types with a projector that writes, and
    carries the object of its type. *)
Definition reaches_database (event : Event) : Prop :=
  ((type event = "customer.subscription.created"
    \/ type event = "customer.subscription.updated")
   /\ exists s, data_object event = SubscriptionObject s)
  \/ type event = "customer.subscription.deleted"
  \/ (type event = "invoice.payment_succeeded"
      /\ exists i, data_object event = InvoiceObject i).

(** [r'] is [r] with the five columns of the event: status, both period
    bounds (epoch seconds times 1000), the cancellation flag, and
    [updatedAt]; every other column is [r]'s. *)
Definition projected_from (s : Subscription.t) (t : Date)
    (r r' : subscriptions.row) : Prop :=
  subscriptions.status r' = Subscription.status s
  /\ subscriptions.currentPeriodStart r' = Some (Subscription.current_period_start s * 1000)
  /\ subscriptions.currentPeriodEnd r' = Some (Subscription.current_period_end s * 1000)
  /\ subscriptions.cancelAtPeriodEnd r' = Some (Subscription.cancel_at_period_end s)
  /\ subscriptions.updatedAt r' = t
  /\ subscriptions.id r' = subscriptions.id r
  /\ subscriptions.userId r' = subscriptions.userId r
  /\ subscriptions.stripeSubscriptionId r' = subscriptions.stripeSubscriptionId r
  /\ subscriptions.stripeCustomerId r' = subscriptions.stripeCustomerId r
  /\ subscriptions.stripePriceId r' = subscriptions.stripePriceId r
  /\ subscriptions.planId r' = subscriptions.planId r
  /\ subscriptions.createdAt r' = subscriptions.createdAt r.

(** Two rows that agree on every column but [updatedAt]. *)
Definition same_but_updatedAt (r r' : subscriptions.row) : Prop :=
  subscriptions.id r' = subscriptions.id r
  /\ subscriptions.userId r' = subscriptions.userId r
  /\ subscriptions.stripeSubscriptionId r' = subscriptions.stripeSubscriptionId r
  /\ subscriptions.stripeCustomerId r' = subscriptions.stripeCustomerId r
  /\ subscriptions.stripePriceId r' = subscriptions.stripePriceId r
  /\ subscriptions.status r' = subscriptions.status r
  /\ subscriptions.planId r' = subscriptions.planId r
  /\ subscriptions.currentPeriodStart r' = subscriptions.currentPeriodStart r
  /\ subscriptions.currentPeriodEnd r' = subscriptions.currentPeriodEnd r
  /\ subscriptions.cancelAtPeriodEnd r' = subscriptions.cancelAtPeriodEnd r
  /\ subscriptions.createdAt r' = subscriptions.createdAt r.

(** [r'] is [r] with status ['canceled'] and [updatedAt] set to [t]; every
    other column is [r]'s. *)
Definition canceled_from (t : Date) (r r' : subscriptions.row) : Prop :=
  subscriptions.status r' = "canceled"
  /\ subscriptions.updatedAt r' = t
  /\ subscriptions.id r' = subscriptions.id r
  /\ subscriptions.userId r' = subscriptions.userId r
  /\ subscriptions.stripeSubscriptionId r' = subscriptions.stripeSubscriptionId r
  /\ subscriptions.stripeCustomerId r' = subscriptions.stripeCustomerId r
  /\ subscriptions.stripePriceId r' = subscriptions.stripePriceId r
  /\ subscriptions.planId r' = subscriptions.planId r
  /\ subscriptions.currentPeriodStart r' = subscriptions.currentPeriodStart r
  /\ subscriptions.currentPeriodEnd r' = subscriptions.currentPeriodEnd r
  /\ subscriptions.cancelAtPeriodEnd r' = subscriptions.cancelAtPeriodEnd r
  /\ subscriptions.createdAt r' = subscriptions.createdAt r.

(** [r'] is [r] with status ['paid'] and the two URLs of the event; every
    other column, [amount] and [currency] among them, is [r]'s. *)
Definition paid_from (i : Invoice.t) (r r' : invoices.row) : Prop :=
  invoices.status r' = "paid"
  /\ invoices.hostedInvoiceUrl r' = Invoice.hosted_invoice_url i
  /\ invoices.invoicePdf r' = Invoice.invoice_pdf i
  /\ invoices.amount r' = invoices.amount r
  /\ invoices.currency r' = invoices.currency r
  /\ invoices.id r' = invoices.id r
  /\ invoices.userId r' = invoices.userId r
  /\ invoices.subscriptionId r' = invoices.subscriptionId r
  /\ invoices.stripeInvoiceId r' = invoices.stripeInvoiceId r
  /\ invoices.createdAt r' = invoices.createdAt r.

(** The number of Invoice rows stored for a provider invoice id. *)
Definition invoices_for (id : string) (d : Database) : nat :=
  List.length (filter (conflict_stripeInvoiceId id) (invoices_table d)).

(** The number of Subscription rows stored for a provider subscription id. *)
Definition subscriptions_for (id : string) (d : Database) : nat :=
  List.length (filter (where_stripeSubscriptionId id) (subscriptions_table d)).

(** The unique constraints of the schema on the two provider ids. *)
Definition unique_provider_ids (d : Database) : Prop :=
  (forall id, (subscriptions_for id d <= 1)%nat)
  /\ (forall id, (invoices_for id d <= 1)%nat).

(** The tables a request can leave behind. *)
Inductive Projected (rt : Runtime) (d : Database) : Database -> Prop :=
| projected_none : Projected rt d d
| projected_updated s : Projected rt d (subscription_updated s (now rt) d)
| projected_canceled id : Projected rt d (subscription_canceled id (now rt) d)
| projected_upserted i : Projected rt d (invoice_upserted i (randomUUID rt) (now rt) d).

(** ** Payment configuration ([src/config/payment.config.ts])

    The fields of a plan that the server actions and the card read; [price],
    a floating-point literal that is only displayed, is left out. *)

Module Plan.
Record t : Type := {
  id : string;
  name : string;
  interval : string;
  features : list string;
  stripePriceId : string
}.
End Plan.

Definition plan_basic : Plan.t :=
  {| Plan.id := "basic"; Plan.name := "Basic Plan"; Plan.interval := "month";
     Plan.features := ["Up to 5 projects"; "10GB storage"; "Email support";
                       "Basic analytics"];
     Plan.stripePriceId := "price_basic_monthly" |}.

Definition plan_pro : Plan.t :=
  {| Plan.id := "pro"; Plan.name := "Pro Plan"; Plan.interval := "month";
     Plan.features := ["Unlimited projects"; "100GB storage"; "Priority support";
                       "Advanced analytics"; "Team collaboration"];
     Plan.stripePriceId := "price_pro_monthly" |}.

Definition plan_enterprise : Plan.t :=
  {| Plan.id := "enterprise"; Plan.name := "Enterprise Plan"; Plan.interval := "month";
     Plan.features := ["Everything in Pro"; "1TB storage"; "Dedicated support";
                       "Custom integrations"; "SLA guarantee"];
     Plan.stripePriceId := "price_enterprise_monthly" |}.

(** [PAYMENT_CONFIG.plans], by key. *)
Definition PAYMENT_CONFIG_plans : list (string * Plan.t) :=
  [ ("basic", plan_basic); ("pro", plan_pro); ("enterprise", plan_enterprise) ].

(** The value of [object[key]]: an own property, a property found on
    [Object.prototype] (a function or object, truthy, without the fields of
    a plan), or [undefined]. *)
Inductive Property (A : Type) : Type :=
| own (a : A)
| inherited
| undefined.
Arguments own {A} a.
Arguments inherited {A}.
Arguments undefined {A}.

Fixpoint own_property {A} (key : string) (object : list (string * A)) : option A :=
  match object with
  | [] => None
  | (k, a) :: object' => if String.eqb k key then Some a else own_property key object'
  end.

(** ** Sessions, the Stripe API, and what the server actions do *)

Record User : Type := {
  user_id : string;        (* session.user.id *)
  email : string;
  user_name : string       (* session.user.name *)
}.

Record Session : Type := {
  user : option User
}.

(** [session?.user] *)
Definition session_user (session : option Session) : option User :=
  match session with
  | Some s => user s
  | None => None
  end.

(** [subscription.latest_invoice], expanded to its payment intent. *)
Record PaymentIntent : Type := {
  client_secret : option string
}.

Record LatestInvoice : Type := {
  payment_intent : option PaymentIntent
}.

(** What [stripe.subscriptions.create] resolves to. *)
Record CreatedSubscription : Type := {
  created_object : Subscription.t;
  latest_invoice : option LatestInvoice
}.

(** [(subscription.latest_invoice as any)?.payment_intent?.client_secret] *)
Definition latest_client_secret (c : CreatedSubscription) : option string :=
  match latest_invoice c with
  | Some invoice =>
      match payment_intent invoice with
      | Some intent => client_secret intent
      | None => None
      end
  | None => None
  end.

(** An exception of a server action: [new Error(message)], or one raised by
    a collaborator. *)
Inductive ActionExn : Type :=
| Error (message : string)
| Raised (e : Exn).

(** The calls made to the Stripe API. *)
Inductive StripeCall : Type :=
| customers_search_call (query : string)
| customers_create_call (email name userId : string)
| subscriptions_create_call (customer : string) (price : option string)
| subscriptions_cancel_call (id : string)
| subscriptions_update_call (id : string) (cancel_at_period_end : bool).

(** What the collaborators of one call of a server action answer: the
    session of the request, the Stripe API, the JavaScript object model
    ([Object.prototype]), the query builder when [.where] is called a second
    time on a select, and the driver on the second statement of the request
    (the first one is [db_fault] of the runtime). *)
Record Services : Type := {
  getSession : ActionExn + option Session;
  customers_search : string -> ActionExn + list string;
  customers_create : string -> string -> string -> ActionExn + string;
  subscriptions_create : string -> option string -> ActionExn + CreatedSubscription;
  subscriptions_cancel : string -> ActionExn + unit;
  subscriptions_update : string -> bool -> ActionExn + unit;
  Object_prototype_has : string -> bool;
  where_where :
    (subscriptions.row -> bool) -> (subscriptions.row -> bool) ->
    subscriptions.row -> bool;
  second_fault : option string
}.

(** The state a server action runs in: the world of the route, the calls
    made to Stripe, and the lines of [console.error]. *)
Record Server : Type := {
  world : World;
  stripe_calls : list StripeCall;
  error_log : list (string * ActionExn)
}.

Inductive Result (A : Type) : Type :=
| Returned (a : A)
| Thrown (e : ActionExn).
Arguments Returned {A} a.
Arguments Thrown {A} e.

Definition Action (A : Type) : Type := Runtime -> Server -> Result A * Server.

Definition areturn {A} (a : A) : Action A := fun _ st => (Returned a, st).

Definition abind {A B} (m : Action A) (k : A -> Action B) : Action B :=
  fun rt st =>
    match m rt st with
    | (Returned a, st') => k a rt st'
    | (Thrown e, st') => (Thrown e, st')
    end.

Definition athrow {A} (e : ActionExn) : Action A := fun _ st => (Thrown e, st).

(** [try { m } catch (error) { h error }] *)
Definition atry {A} (m : Action A) (h : ActionExn -> Action A) : Action A :=
  fun rt st =>
    match m rt st with
    | (Returned a, st') => (Returned a, st')
    | (Thrown e, st') => h e rt st'
    end.

Declare Scope action_scope.
Delimit Scope action_scope with action.
Notation "x <-- m ;; k" := (abind m (fun x => k))
  (at level 100, m at next level, right associativity) : action_scope.
Notation "m ;;;; k" := (abind m (fun _ => k))
  (at level 100, right associativity) : action_scope.
Local Open Scope action_scope.

(** A computation of the route's monad, run inside an action. *)
Definition lift {A} (m : M A) : Action A :=
  fun rt st =>
    match m rt (world st) with
    | (Ok a, w') =>
        (Returned a,
         {| world := w'; stripe_calls := stripe_calls st; error_log := error_log st |})
    | (Throw e, w') =>
        (Thrown (Raised e),
         {| world := w'; stripe_calls := stripe_calls st; error_log := error_log st |})
    end.

(** [await] of a collaborator that resolves or rejects. *)
Definition await {A} (answer : ActionExn + A) : Action A :=
  match answer with
  | inr a => areturn a
  | inl e => athrow e
  end.

(** [await stripe. ...]: the call is made, then resolves or rejects. *)
Definition stripe_call {A} (call : StripeCall) (answer : ActionExn + A) : Action A :=
  fun rt st =>
    await answer rt
      {| world := world st; stripe_calls := stripe_calls st ++ [call];
         error_log := error_log st |}.

(** [console.error(label, error)] in an action. *)
Definition action_console_error (label : string) (error : ActionExn) : Action unit :=
  fun _ st =>
    (Returned tt,
     {| world := world st; stripe_calls := stripe_calls st;
        error_log := error_log st ++ [(label, error)] |}).

(** [await db. ...] in an action: the statement is sent once; the driver
    raises ([fault]), or the statement violates a constraint ([apply] gives a
    message), or it is applied. *)
Definition db_statement (fault : option string) (stmt : Statement)
    (apply : Database -> string + Database) : Action unit :=
  fun _ st =>
    let w := world st in
    let refused message :=
      (Thrown (Raised (DatabaseError message)),
       {| world := {| db := db w; console := console w; issued := issued w ++ [stmt] |};
          stripe_calls := stripe_calls st; error_log := error_log st |}) in
    match fault with
    | Some message => refused message
    | None =>
        match apply (db w) with
        | inl message => refused message
        | inr d =>
            (Returned tt,
             {| world := {| db := d; console := console w; issued := issued w ++ [stmt] |};
                stripe_calls := stripe_calls st; error_log := error_log st |})
        end
    end.

(** [await db.select(). ...]: the rows the query selects. *)
Definition db_select {A} (fault : option string) (t : Table) (query : Database -> A)
    : Action A :=
  fun rt st =>
    match db_statement fault (Select t) (fun d => inr d) rt st with
    | (Returned _, st') => (Returned (query (db (world st'))), st')
    | (Thrown e, st') => (Thrown e, st')
    end.

(** [db.insert(subscriptions).values(row)]: [stripeSubscriptionId] is
    [unique()], so a row with the same provider id refuses the insert. *)
Definition insert_subscription (row : subscriptions.row) (d : Database)
    : string + Database :=
  match subscriptions.stripeSubscriptionId row with
  | Some key =>
      if existsb (where_stripeSubscriptionId key) (subscriptions_table d)
      then inl "duplicate key value violates unique constraint"
      else inr (on_subscriptions (fun rows => rows ++ [row]) d)
  | None => inr (on_subscriptions (fun rows => rows ++ [row]) d)
  end.

(** The [.values({...})] of [createSubscription]; the columns it leaves out
    take their defaults: [cancelAtPeriodEnd] is [false], [createdAt] and
    [updatedAt] are [defaultNow()]. *)
Definition subscription_values (uuid : string) (u : User) (customer : string)
    (price : option string) (planId : string) (subscription : Subscription.t)
    (created : Date) : subscriptions.row :=
  {| subscriptions.id := uuid;
     subscriptions.userId := user_id u;
     subscriptions.stripeSubscriptionId := Some (Subscription.id subscription);
     subscriptions.stripeCustomerId := Some customer;
     subscriptions.stripePriceId := price;
     subscriptions.status := Subscription.status subscription;
     subscriptions.planId := planId;
     subscriptions.currentPeriodStart :=
       Some (new_Date (Subscription.current_period_start subscription * 1000));
     subscriptions.currentPeriodEnd :=
       Some (new_Date (Subscription.current_period_end subscription * 1000));
     subscriptions.cancelAtPeriodEnd := Some false;
     subscriptions.createdAt := created;
     subscriptions.updatedAt := created |}.

(** The [.set({...})] of [cancelSubscription], immediate. *)
Definition set_canceled_now (updatedAt : Date) (r : subscriptions.row) : subscriptions.row :=
  {| subscriptions.id := subscriptions.id r;
     subscriptions.userId := subscriptions.userId r;
     subscriptions.stripeSubscriptionId := subscriptions.stripeSubscriptionId r;
     subscriptions.stripeCustomerId := subscriptions.stripeCustomerId r;
     subscriptions.stripePriceId := subscriptions.stripePriceId r;
     subscriptions.status := "canceled";
     subscriptions.planId := subscriptions.planId r;
     subscriptions.currentPeriodStart := subscriptions.currentPeriodStart r;
     subscriptions.currentPeriodEnd := subscriptions.currentPeriodEnd r;
     subscriptions.cancelAtPeriodEnd := Some false;
     subscriptions.createdAt := subscriptions.createdAt r;
     subscriptions.updatedAt := updatedAt |}.

(** The [.set({...})] of [cancelSubscription], at period end. *)
Definition set_cancel_at_period_end (updatedAt : Date) (r : subscriptions.row)
    : subscriptions.row :=
  {| subscriptions.id := subscriptions.id r;
     subscriptions.userId := subscriptions.userId r;
     subscriptions.stripeSubscriptionId := subscriptions.stripeSubscriptionId r;
     subscriptions.stripeCustomerId := subscriptions.stripeCustomerId r;
     subscriptions.stripePriceId := subscriptions.stripePriceId r;
     subscriptions.status := subscriptions.status r;
     subscriptions.planId := subscriptions.planId r;
     subscriptions.currentPeriodStart := subscriptions.currentPeriodStart r;
     subscriptions.currentPeriodEnd := subscriptions.currentPeriodEnd r;
     subscriptions.cancelAtPeriodEnd := Some true;
     subscriptions.createdAt := subscriptions.createdAt r;
     subscriptions.updatedAt := updatedAt |}.

(** [eq(subscriptions.userId, id)] *)
Definition where_userId (id : string) (r : subscriptions.row) : bool :=
  String.eqb (subscriptions.userId r) id.

(** [`email:'${session.user.email}'`] *)
Definition customer_query (u : User) : string :=
  String.append "email:'" (String.append (email u) "'").

Record CreateSubscriptionResult : Type := {
  subscriptionId : string;
  clientSecret : option string
}.

Record CancelSubscriptionResult : Type := {
  success : bool
}.

Section Actions.

Variable services : Services.

(** [PAYMENT_CONFIG.plans[planId]] *)
Definition plans_get (planId : string) : Property Plan.t :=
  match own_property planId PAYMENT_CONFIG_plans with
  | Some plan => own plan
  | None => if Object_prototype_has services planId then inherited else undefined
  end.

(** [plan.stripePriceId] *)
Definition plan_stripePriceId (plan : Property Plan.t) : option string :=
  match plan with
  | own p => Some (Plan.stripePriceId p)
  | _ => None
  end.

(** [src/server/actions/payment/create-subscription.ts] *)
Definition createSubscription (planId : string) : Action CreateSubscriptionResult :=
  session <-- await (getSession services) ;;
  match session_user session with
  | None => athrow (Error "Unauthorized")
  | Some u =>
      match plans_get planId with
      | undefined => athrow (Error "Invalid plan")
      | plan =>
          atry
            (found <-- stripe_call
                         (customers_search_call (customer_query u))
                         (customers_search services (customer_query u)) ;;
             customer <-- match found with
                          | [] =>
                              stripe_call
                                (customers_create_call (email u) (user_name u) (user_id u))
                                (customers_create services (email u) (user_name u)
                                   (user_id u))
                          | first :: _ => areturn first
                          end ;;
             subscription <-- stripe_call
                                (subscriptions_create_call customer
                                   (plan_stripePriceId plan))
                                (subscriptions_create services customer
                                   (plan_stripePriceId plan)) ;;
             uuid <-- lift crypto_randomUUID ;;
             created <-- lift defaultNow ;;
             (fun rt =>
                db_statement (db_fault rt) (Insert T_subscriptions)
                  (insert_subscription
                     (subscription_values uuid u customer (plan_stripePriceId plan)
                        planId (created_object subscription) created)) rt) ;;;;
             areturn
               {| subscriptionId := Subscription.id (created_object subscription);
                  clientSecret := latest_client_secret subscription |})
            (fun error =>
               action_console_error "Error creating subscription:" error ;;;;
               athrow (Error "Failed to create subscription"))
      end
  end.

(** [src/server/actions/payment/cancel-subscription.ts]; [immediate] is
    [None] when the caller leaves the argument out. *)
Definition cancelSubscription (subscriptionId : string) (immediate : option bool)
    : Action CancelSubscriptionResult :=
  let immediate := match immediate with Some b => b | None => false end in
  session <-- await (getSession services) ;;
  match session_user session with
  | None => athrow (Error "Unauthorized")
  | Some u =>
      atry
        (rows <-- (fun rt =>
                     db_select (db_fault rt) T_subscriptions
                       (fun d =>
                          filter
                            (where_where services (where_userId (user_id u))
                               (where_stripeSubscriptionId subscriptionId))
                            (subscriptions_table d)) rt) ;;
         match rows with
         | [] => athrow (Error "Subscription not found")
         | _ :: _ =>
             (if immediate
              then
                stripe_call (subscriptions_cancel_call subscriptionId)
                  (subscriptions_cancel services subscriptionId) ;;;;
                updatedAt <-- lift new_Date_now ;;
                db_statement (second_fault services) (Update T_subscriptions)
                  (fun d =>
                     inr (on_subscriptions
                            (update_where (where_stripeSubscriptionId subscriptionId)
                               (set_canceled_now updatedAt)) d))
              else
                stripe_call (subscriptions_update_call subscriptionId true)
                  (subscriptions_update services subscriptionId true) ;;;;
                updatedAt <-- lift new_Date_now ;;
                db_statement (second_fault services) (Update T_subscriptions)
                  (fun d =>
                     inr (on_subscriptions
                            (update_where (where_stripeSubscriptionId subscriptionId)
                               (set_cancel_at_period_end updatedAt)) d))) ;;;;
             areturn {| success := true |}
         end)
        (fun error =>
           action_console_error "Error canceling subscription:" error ;;;;
           athrow (Error "Failed to cancel subscription"))
  end.

End Actions.

(** ** Columns that no webhook writes *)

(** The columns of a Subscription row that no handler of the route sets. *)
Definition subscription_identity (r : subscriptions.row) :=
  (subscriptions.id r, subscriptions.userId r, subscriptions.stripeSubscriptionId r,
   subscriptions.stripeCustomerId r, subscriptions.stripePriceId r,
   subscriptions.planId r, subscriptions.createdAt r).

(** The columns of a stored Invoice row that no handler of the route sets. *)
Definition invoice_identity (r : invoices.row) :=
  (invoices.id r, invoices.userId r, invoices.subscriptionId r,
   invoices.stripeInvoiceId r, invoices.amount r, invoices.currency r,
   invoices.createdAt r).

(** ** Test doubles for the server actions *)

Definition alice : User :=
  {| user_id := "user_1"; email := "alice@example.com"; user_name := "Alice" |}.

(** The names of the properties of [Object.prototype]. *)
Definition Object_prototype_names : list string :=
  [ "constructor"; "__defineGetter__"; "__defineSetter__"; "hasOwnProperty";
    "__lookupGetter__"; "__lookupSetter__"; "isPrototypeOf"; "propertyIsEnumerable";
    "toString"; "valueOf"; "__proto__"; "toLocaleString" ].

Definition created_sub_1 : CreatedSubscription :=
  {| created_object :=
       {| Subscription.id := "sub_1"; Subscription.status := "incomplete";
          Subscription.current_period_start := 1700000000;
          Subscription.current_period_end := 1702592000;
          Subscription.cancel_at_period_end := false |};
     latest_invoice :=
       Some {| payment_intent := Some {| client_secret := Some "pi_1_secret" |} |} |}.

(** Collaborators that answer: [session] is the session of the request,
    Stripe knows the customers [known], and a second [.where] replaces the
    first. *)
Definition test_services (session : option Session) (known : list string) : Services :=
  {| getSession := inr session;
     customers_search := fun _ => inr known;
     customers_create := fun _ _ _ => inr "cus_new";
     subscriptions_create := fun _ _ => inr created_sub_1;
     subscriptions_cancel := fun _ => inr tt;
     subscriptions_update := fun _ _ => inr tt;
     Object_prototype_has := fun key => existsb (String.eqb key) Object_prototype_names;
     where_where := fun _ q => q;
     second_fault := None |}.

(** The same, with a Stripe API that rejects cancellations and a query
    builder that conjoins a second [.where] with the first. *)
Definition strict_services (session : option Session) : Services :=
  {| getSession := inr session;
     customers_search := fun _ => inr [];
     customers_create := fun _ _ _ => inr "cus_new";
     subscriptions_create := fun _ _ => inr created_sub_1;
     subscriptions_cancel := fun _ => inl (Error "No such subscription");
     subscriptions_update := fun _ _ => inl (Error "No such subscription");
     Object_prototype_has := fun key => existsb (String.eqb key) Object_prototype_names;
     where_where := fun p q r => p r && q r;
     second_fault := None |}.

Definition signed_in (u : User) : option Session := Some {| user := Some u |}.

Definition serve (d : Database) : Server :=
  {| world := boot d; stripe_calls := []; error_log := [] |}.

(** What [.where(p).where(q)] may select: at least the rows that satisfy
    both conditions, and only rows that satisfy the second. *)
Definition where_where_bounds (services : Services) : Prop :=
  forall p q r,
    (p r && q r = true -> where_where services p q r = true)
    /\ (where_where services p q r = true -> q r = true).

(** ** The two stages of [POST] *)

Lemma POST_rejected stripe req rt w error :
  rejected stripe req rt error ->
  POST stripe req rt w =
  (Ok response_400,
   log w (console_error_entry "Webhook signature verification failed:" error)).
Proof.
  unfold rejected, POST, verify, bind, try_catch, ask. intros ->. reflexivity.
Qed.

Lemma POST_verified stripe req rt w event :
  verified stripe req rt event ->
  POST stripe req rt w =
  match dispatch event rt w with
  | (Ok _, w') => (Ok response_200, w')
  | (Throw error, w') =>
      (Ok response_500, log w' (console_error_entry "Webhook handler error:" error))
  end.
Proof.
  unfold verified, POST, verify, bind, try_catch, ask. intros ->. simpl.
  destruct (dispatch event rt w) as [[[]|error] w']; reflexivity.
Qed.

(** [POST] always answers: no exception escapes the route. *)
Lemma POST_answers stripe req rt w :
  exists response, fst (POST stripe req rt w) = Ok response.
Proof.
  destruct (constructEvent stripe (text req)
              (headers_get "stripe-signature" (headers req))
              (STRIPE_WEBHOOK_SECRET rt)) as [error|event] eqn:E.
  - rewrite (POST_rejected _ _ _ w _ E). simpl. eauto.
  - rewrite (POST_verified _ _ _ w _ E).
    destruct (dispatch event rt w) as [[[]|error] w']; simpl; eauto.
Qed.

(** ** The dispatcher's registry *)

Lemma dispatch_cases event : Dispatched event (dispatch event).
Proof.
  unfold dispatch.
  destruct (String.eqb_spec (type event) "customer.subscription.created") as [E1|N1];
    [simpl; constructor; auto|].
  destruct (String.eqb_spec (type event) "customer.subscription.updated") as [E2|N2];
    [simpl; constructor; auto|].
  destruct (String.eqb_spec (type event) "customer.subscription.deleted") as [E3|N3];
    [simpl; constructor; auto|].
  destruct (String.eqb_spec (type event) "invoice.payment_succeeded") as [E4|N4];
    [simpl; constructor; auto|].
  destruct (String.eqb_spec (type event) "invoice.payment_failed") as [E5|N5];
    [simpl; constructor; auto|].
  simpl. apply to_default. unfold registry. simpl. intuition congruence.
Qed.

Lemma dispatch_update event :
  type event = "customer.subscription.created"
  \/ type event = "customer.subscription.updated" ->
  dispatch event = handleSubscriptionUpdate (data_object event).
Proof. unfold dispatch. intros [-> | ->]; reflexivity. Qed.

Lemma dispatch_deleted event :
  type event = "customer.subscription.deleted" ->
  dispatch event = handleSubscriptionDeleted (data_object event).
Proof. unfold dispatch. intros ->. reflexivity. Qed.

Lemma dispatch_succeeded event :
  type event = "invoice.payment_succeeded" ->
  dispatch event = handleInvoicePaymentSucceeded (data_object event).
Proof. unfold dispatch. intros ->. reflexivity. Qed.

Lemma dispatch_failed event :
  type event = "invoice.payment_failed" ->
  dispatch event = handleInvoicePaymentFailed (data_object event).
Proof. unfold dispatch. intros ->. reflexivity. Qed.

Lemma dispatch_default event :
  ~ In (type event) registry ->
  dispatch event = console_log [String.append "Unhandled event type: " (type event)].
Proof.
  intros H. destruct (dispatch_cases event) as [[E|E]|E|E|E|_]; try reflexivity;
    exfalso; apply H; rewrite E; unfold registry; simpl; tauto.
Qed.

(** ** The database statement of each handler *)

Lemma db_execute_ok stmt apply rt w :
  db_fault rt = None ->
  db_execute stmt apply rt w = (Ok tt, sent w stmt (apply (db w))).
Proof. unfold db_execute. intros ->. reflexivity. Qed.

Lemma db_execute_fault stmt apply rt w message :
  db_fault rt = Some message ->
  db_execute stmt apply rt w = (Throw (DatabaseError message), sent w stmt (db w)).
Proof. unfold db_execute. intros ->. reflexivity. Qed.

Lemma handleSubscriptionUpdate_statement s rt w :
  handleSubscriptionUpdate (SubscriptionObject s) rt w =
  db_execute (Update T_subscriptions) (subscription_updated s (now rt)) rt w.
Proof. reflexivity. Qed.

Lemma handleSubscriptionDeleted_statement o rt w :
  handleSubscriptionDeleted o rt w =
  db_execute (Update T_subscriptions) (subscription_canceled (object_id o) (now rt)) rt w.
Proof. reflexivity. Qed.

Lemma handleInvoicePaymentSucceeded_statement i rt w :
  handleInvoicePaymentSucceeded (InvoiceObject i) rt w =
  db_execute (Insert T_invoices) (invoice_upserted i (randomUUID rt) (now rt)) rt w.
Proof. reflexivity. Qed.

Lemma db_execute_effect stmt apply rt w : Effect rt w (db_execute stmt apply rt w).
Proof.
  destruct (db_fault rt) as [message|] eqn:F.
  - rewrite (db_execute_fault _ _ _ _ _ F). now constructor.
  - rewrite (db_execute_ok _ _ _ _ F). now constructor.
Qed.

Lemma dispatch_effect event rt w : Effect rt w (dispatch event rt w).
Proof.
  destruct (dispatch_cases event).
  - destruct (data_object event) as [s|i|id].
    + rewrite handleSubscriptionUpdate_statement. apply db_execute_effect.
    + apply effect_raised.
    + apply effect_raised.
  - rewrite handleSubscriptionDeleted_statement. apply db_execute_effect.
  - destruct (data_object event) as [s|i|id].
    + apply effect_raised.
    + rewrite handleInvoicePaymentSucceeded_statement. apply db_execute_effect.
    + apply effect_raised.
  - apply effect_logged.
  - apply effect_logged.
Qed.

(** ** Requests that change nothing *)

(** C1. A POST whose body and [stripe-signature] header fail verification
    is answered with HTTP 400 and the error object
    [{ error: 'Invalid signature' }]; no statement is sent to the database
    and every table is as it was. *)
Theorem invalid_signature_400_no_write stripe req rt w error :
  rejected stripe req rt error ->
  fst (POST stripe req rt w)
    = Ok {| body := json_error "Invalid signature"; status := 400 |}
  /\ answer stripe req rt w = Some 400
  /\ db (after stripe req rt w) = db w
  /\ issued (after stripe req rt w) = issued w.
Proof.
  intros H. unfold answer, after. rewrite (POST_rejected _ _ _ w _ H).
  repeat split.
Qed.

Lemma invalid_signature_400_no_write_witness :
  rejected test_stripe (tampered "paid") (runtime_at 1700000100000 "a1")
    (StripeSignatureVerificationError "signature mismatch")
  /\ answer test_stripe (tampered "paid") (runtime_at 1700000100000 "a1")
       (boot db_with_sub_1) = Some 400
  /\ db (after test_stripe (tampered "paid") (runtime_at 1700000100000 "a1")
           (boot db_with_sub_1)) = db_with_sub_1.
Proof.
  split; [reflexivity|].
  destruct (invalid_signature_400_no_write test_stripe (tampered "paid")
              (runtime_at 1700000100000 "a1") (boot db_with_sub_1)
              (StripeSignatureVerificationError "signature mismatch"))
    as (_ & A & D & _); [reflexivity|].
  split; [exact A | exact D].
Defined.

(** C7. An [invoice.payment_failed] event is observational only: the
    handler writes one line to the console, sends no statement to the
    database, leaves the subscriptions, invoices and payment methods tables
    unchanged, and the endpoint answers HTTP 200. *)
Theorem payment_failed_log_only stripe req rt w event :
  verified stripe req rt event ->
  type event = "invoice.payment_failed" ->
  fst (POST stripe req rt w) = Ok {| body := json_received true; status := 200 |}
  /\ console (after stripe req rt w)
     = console w ++ [console_log_entry ["Payment failed for invoice:";
                                         object_id (data_object event)]]
  /\ issued (after stripe req rt w) = issued w
  /\ subscriptions_table (db (after stripe req rt w)) = subscriptions_table (db w)
  /\ invoices_table (db (after stripe req rt w)) = invoices_table (db w)
  /\ paymentMethods_table (db (after stripe req rt w)) = paymentMethods_table (db w).
Proof.
  intros V T. unfold after. rewrite (POST_verified _ _ _ w _ V).
  rewrite (dispatch_failed _ T). repeat split.
Qed.

Lemma payment_failed_log_only_witness :
  fst (POST test_stripe (signed "failed") (runtime_down 1700000100000 "a1")
         (boot db_with_sub_1))
    = Ok {| body := json_received true; status := 200 |}
  /\ db (after test_stripe (signed "failed") (runtime_down 1700000100000 "a1")
           (boot db_with_sub_1)) = db_with_sub_1.
Proof.
  destruct (payment_failed_log_only test_stripe (signed "failed")
              (runtime_down 1700000100000 "a1") (boot db_with_sub_1)
              {| type := "invoice.payment_failed"; data_object := InvoiceObject in_123 |})
    as (R & _ & _ & S & I & P); [reflexivity | reflexivity |].
  split; [exact R | reflexivity].
Defined.

(** C8. A verified event whose type is none of the five registered ones is
    logged and acknowledged: one console line, no statement sent to the
    database, the tables unchanged, and the answer is HTTP 200 with
    [{ received: true }]. *)
Theorem unrecognized_type_acknowledged stripe req rt w event :
  verified stripe req rt event ->
  type event <> "customer.subscription.created" ->
  type event <> "customer.subscription.updated" ->
  type event <> "customer.subscription.deleted" ->
  type event <> "invoice.payment_succeeded" ->
  type event <> "invoice.payment_failed" ->
  fst (POST stripe req rt w) = Ok {| body := json_received true; status := 200 |}
  /\ console (after stripe req rt w)
     = console w ++ [console_log_entry
                       [String.append "Unhandled event type: " (type event)]]
  /\ issued (after stripe req rt w) = issued w
  /\ db (after stripe req rt w) = db w.
Proof.
  intros V N1 N2 N3 N4 N5. unfold after. rewrite (POST_verified _ _ _ w _ V).
  rewrite dispatch_default.
  - repeat split.
  - unfold registry. simpl. intuition congruence.
Qed.

Lemma unrecognized_type_acknowledged_witness :
  fst (POST test_stripe (signed "checkout") (runtime_at 1700000100000 "a1")
         (boot db_with_sub_1))
    = Ok {| body := json_received true; status := 200 |}
  /\ console (after test_stripe (signed "checkout") (runtime_at 1700000100000 "a1")
                (boot db_with_sub_1))
     = [console_log_entry ["Unhandled event type: checkout.session.completed"]].
Proof.
  destruct (unrecognized_type_acknowledged test_stripe (signed "checkout")
              (runtime_at 1700000100000 "a1") (boot db_with_sub_1)
              {| type := "checkout.session.completed"; data_object := OtherObject "cs_1" |})
    as (R & C & _ & _); try reflexivity; try (simpl; discriminate).
  split; [exact R | exact C].
Defined.

(** ** Handler exceptions *)

Lemma reaches_database_sends event rt w :
  reaches_database event ->
  exists stmt apply, dispatch event rt w = db_execute stmt apply rt w.
Proof.
  intros [[T [s O]] | [T | [T [i O]]]].
  - rewrite (dispatch_update _ T), O, handleSubscriptionUpdate_statement. eauto.
  - rewrite (dispatch_deleted _ T), handleSubscriptionDeleted_statement. eauto.
  - rewrite (dispatch_succeeded _ T), O, handleInvoicePaymentSucceeded_statement. eauto.
Qed.

(** C9. For a verified event of a recognized type whose handler writes, an
    error raised by the database on the handler's statement reaches the
    dispatcher, which logs it and answers HTTP 500 with an error object, the
    tables being as they were; the statement is sent once and not retried (a
    request sends at most one statement); and the endpoint answers 500
    exactly when the handler raises. *)
Theorem handler_exception_500 stripe req rt w event :
  verified stripe req rt event ->
  (forall message, db_fault rt = Some message -> reaches_database event ->
   fst (dispatch event rt w) = Throw (DatabaseError message)
   /\ fst (POST stripe req rt w)
      = Ok {| body := json_error "Webhook handler failed"; status := 500 |}
   /\ console (after stripe req rt w)
      = console w ++ [console_error_entry "Webhook handler error:"
                        (DatabaseError message)]
   /\ db (after stripe req rt w) = db w
   /\ exists stmt, issued (after stripe req rt w) = issued w ++ [stmt])
  /\ (answer stripe req rt w = Some 500
      <-> exists error, fst (dispatch event rt w) = Throw error)
  /\ (forall error, fst (dispatch event rt w) = Throw error ->
      fst (POST stripe req rt w)
        = Ok {| body := json_error "Webhook handler failed"; status := 500 |}
      /\ console (after stripe req rt w)
         = console w ++ [console_error_entry "Webhook handler error:" error])
  /\ (issued (after stripe req rt w) = issued w
      \/ exists stmt, issued (after stripe req rt w) = issued w ++ [stmt]).
Proof.
  intros V. unfold answer, after. rewrite (POST_verified _ _ _ w _ V). split.
  - intros message F R.
    destruct (reaches_database_sends _ rt w R) as (stmt & apply & ->).
    rewrite (db_execute_fault _ _ _ _ _ F). simpl. repeat split. eauto.
  - destruct (dispatch_effect event rt w) as [entry|error|stmt d F|stmt message F];
      simpl; repeat split; intros;
      repeat match goal with
             | H : exists _, _ |- _ => destruct H
             | H : Throw _ = Throw _ |- _ => injection H as <-
             | H : Ok _ = Throw _ |- _ => discriminate H
             | H : Some _ = Some _ |- _ => injection H as H
             end;
      try reflexivity; try congruence; eauto.
Qed.

Lemma handler_exception_500_witness :
  answer test_stripe (signed "updated") (runtime_down 1700000100000 "a1")
    (boot db_with_sub_1) = Some 500
  /\ db (after test_stripe (signed "updated") (runtime_down 1700000100000 "a1")
           (boot db_with_sub_1)) = db_with_sub_1
  /\ issued (after test_stripe (signed "updated") (runtime_down 1700000100000 "a1")
               (boot db_with_sub_1)) = [Update T_subscriptions].
Proof.
  destruct (handler_exception_500 test_stripe (signed "updated")
              (runtime_down 1700000100000 "a1") (boot db_with_sub_1)
              {| type := "customer.subscription.updated";
                 data_object := SubscriptionObject sub_1 |})
    as (Fault & _); [reflexivity|].
  destruct (Fault "connection terminated") as (_ & _ & _ & D & _);
    [reflexivity | left; split; [right; reflexivity | exists sub_1; reflexivity] |].
  split; [reflexivity|]. split; [exact D | reflexivity].
Defined.

(** ** Facts about the query builder *)

Section QueryBuilder.

Context {R : Type}.
Variables (p : R -> bool) (set : R -> R).

Lemma update_where_length rows :
  List.length (update_where p set rows) = List.length rows.
Proof. unfold update_where. apply List.length_map. Qed.

Lemma update_where_no_match rows :
  existsb p rows = false -> update_where p set rows = rows.
Proof.
  unfold update_where. induction rows as [|r rows IH]; simpl; [reflexivity|].
  intros H. apply orb_false_iff in H as [Hr Hrows].
  rewrite Hr, (IH Hrows). reflexivity.
Qed.

Lemma update_where_rows rows :
  Forall2 (fun r r' => r' = if p r then set r else r) rows (update_where p set rows).
Proof. unfold update_where. induction rows; simpl; constructor; auto. Qed.

Lemma update_where_In r' rows :
  In r' (update_where p set rows) ->
  exists r, In r rows /\ r' = if p r then set r else r.
Proof.
  unfold update_where. intros H. apply in_map_iff in H as (r & E & I). eauto.
Qed.

(** A column that [set] does not write keeps its value in every row. *)
Lemma update_where_keeps {C} (col : R -> C) rows :
  (forall r, col (set r) = col r) ->
  map col (update_where p set rows) = map col rows.
Proof.
  intros K. unfold update_where. rewrite map_map. apply map_ext.
  intros r. destruct (p r); auto.
Qed.

(** A filter on columns that [set] does not write selects as many rows
    after the update as before. *)
Lemma update_where_count (q : R -> bool) rows :
  (forall r, q (set r) = q r) ->
  List.length (filter q (update_where p set rows)) = List.length (filter q rows).
Proof.
  intros K. unfold update_where.
  induction rows as [|r rows IH]; simpl; [reflexivity|].
  replace (q (if p r then set r else r)) with (q r) by (destruct (p r); auto).
  destruct (q r); simpl; auto.
Qed.

(** Updating twice under the same condition is updating once with the
    later assignment, when the assignment overwrites what it sets and the
    condition reads none of it. *)
Lemma update_where_twice (set' : R -> R) rows :
  (forall r, p (set r) = p r) ->
  (forall r, set' (set r) = set' r) ->
  update_where p set' (update_where p set rows) = update_where p set' rows.
Proof.
  intros Kp Ks. unfold update_where. rewrite map_map. apply map_ext.
  intros r. destruct (p r) eqn:E.
  - rewrite Kp, E. apply Ks.
  - rewrite E. reflexivity.
Qed.

Lemma filter_none (q : R -> bool) rows :
  existsb q rows = false -> filter q rows = [].
Proof.
  induction rows as [|r rows IH]; simpl; [reflexivity|].
  intros H. apply orb_false_iff in H as [Hr Hrows]. rewrite Hr. auto.
Qed.

Lemma upsert_conflict proposed rows :
  existsb p rows = true ->
  insert_on_conflict_do_update p proposed set rows = update_where p set rows.
Proof. unfold insert_on_conflict_do_update. intros ->. reflexivity. Qed.

Lemma upsert_insert proposed rows :
  existsb p rows = false ->
  insert_on_conflict_do_update p proposed set rows = rows ++ [proposed].
Proof. unfold insert_on_conflict_do_update. intros ->. reflexivity. Qed.

End QueryBuilder.

(** The conditions of the handlers read the provider id only, which no
    assignment writes. *)
Lemma where_after_update id s t r :
  where_stripeSubscriptionId id (set_subscription_update s t r)
  = where_stripeSubscriptionId id r.
Proof. reflexivity. Qed.

Lemma where_after_canceled id t r :
  where_stripeSubscriptionId id (set_subscription_canceled t r)
  = where_stripeSubscriptionId id r.
Proof. reflexivity. Qed.

Lemma conflict_after_paid id i r :
  conflict_stripeInvoiceId id (set_invoice_paid i r) = conflict_stripeInvoiceId id r.
Proof. reflexivity. Qed.

Lemma where_stripeSubscriptionId_spec id r :
  where_stripeSubscriptionId id r = true
  <-> subscriptions.stripeSubscriptionId r = Some id.
Proof.
  unfold where_stripeSubscriptionId, eq_col.
  destruct (subscriptions.stripeSubscriptionId r) as [v|]; split; intros H;
    try discriminate.
  - apply String.eqb_eq in H. now subst.
  - injection H as ->. apply String.eqb_refl.
Qed.

Lemma conflict_stripeInvoiceId_spec id r :
  conflict_stripeInvoiceId id r = true <-> invoices.stripeInvoiceId r = Some id.
Proof.
  unfold conflict_stripeInvoiceId, eq_col.
  destruct (invoices.stripeInvoiceId r) as [v|]; split; intros H; try discriminate.
  - apply String.eqb_eq in H. now subst.
  - injection H as ->. apply String.eqb_refl.
Qed.

Lemma existsb_count {R} (q : R -> bool) rows :
  existsb q rows = true -> (1 <= List.length (filter q rows))%nat.
Proof.
  induction rows as [|r rows IH]; simpl; [discriminate|].
  destruct (q r); simpl; [lia | exact IH].
Qed.

(** The upsert stores one row for its key, or keeps those it found; the
    count for any other key is as before. *)
Lemma invoices_for_upserted id i uuid t d :
  invoices_for id (invoice_upserted i uuid t d)
  = if String.eqb (Invoice.id i) id
    then Nat.max 1 (invoices_for id d)
    else invoices_for id d.
Proof.
  unfold invoices_for, invoice_upserted, on_invoices, insert_on_conflict_do_update.
  cbn [invoices_table].
  destruct (existsb (conflict_stripeInvoiceId (Invoice.id i)) (invoices_table d)) eqn:E.
  - rewrite update_where_count by (intros; apply conflict_after_paid).
    destruct (String.eqb_spec (Invoice.id i) id) as [<-|N]; [|reflexivity].
    apply existsb_count in E. lia.
  - rewrite filter_app, length_app. cbn [filter].
    unfold conflict_stripeInvoiceId at 2. cbn [invoice_values invoices.stripeInvoiceId eq_col].
    destruct (String.eqb_spec (Invoice.id i) id) as [<-|N]; simpl.
    + rewrite (filter_none _ _ E). reflexivity.
    + lia.
Qed.

(** ** What an acknowledged event leaves in the tables *)

Lemma POST_subscription_update stripe req rt w event s :
  verified stripe req rt event ->
  type event = "customer.subscription.created"
  \/ type event = "customer.subscription.updated" ->
  data_object event = SubscriptionObject s ->
  POST stripe req rt w =
  match db_fault rt with
  | None => (Ok response_200,
             sent w (Update T_subscriptions) (subscription_updated s (now rt) (db w)))
  | Some message =>
      (Ok response_500,
       log (sent w (Update T_subscriptions) (db w))
         (console_error_entry "Webhook handler error:" (DatabaseError message)))
  end.
Proof.
  intros V T O. rewrite (POST_verified _ _ _ w _ V), (dispatch_update _ T), O.
  rewrite handleSubscriptionUpdate_statement.
  destruct (db_fault rt) as [message|] eqn:F.
  - rewrite (db_execute_fault _ _ _ _ _ F). reflexivity.
  - rewrite (db_execute_ok _ _ _ _ F). reflexivity.
Qed.

Lemma POST_subscription_deleted stripe req rt w event :
  verified stripe req rt event ->
  type event = "customer.subscription.deleted" ->
  POST stripe req rt w =
  match db_fault rt with
  | None => (Ok response_200,
             sent w (Update T_subscriptions)
               (subscription_canceled (object_id (data_object event)) (now rt) (db w)))
  | Some message =>
      (Ok response_500,
       log (sent w (Update T_subscriptions) (db w))
         (console_error_entry "Webhook handler error:" (DatabaseError message)))
  end.
Proof.
  intros V T. rewrite (POST_verified _ _ _ w _ V), (dispatch_deleted _ T).
  rewrite handleSubscriptionDeleted_statement.
  destruct (db_fault rt) as [message|] eqn:F.
  - rewrite (db_execute_fault _ _ _ _ _ F). reflexivity.
  - rewrite (db_execute_ok _ _ _ _ F). reflexivity.
Qed.

Lemma POST_invoice_succeeded stripe req rt w event i :
  verified stripe req rt event ->
  type event = "invoice.payment_succeeded" ->
  data_object event = InvoiceObject i ->
  POST stripe req rt w =
  match db_fault rt with
  | None => (Ok response_200,
             sent w (Insert T_invoices)
               (invoice_upserted i (randomUUID rt) (now rt) (db w)))
  | Some message =>
      (Ok response_500,
       log (sent w (Insert T_invoices) (db w))
         (console_error_entry "Webhook handler error:" (DatabaseError message)))
  end.
Proof.
  intros V T O. rewrite (POST_verified _ _ _ w _ V), (dispatch_succeeded _ T), O.
  rewrite handleInvoicePaymentSucceeded_statement.
  destruct (db_fault rt) as [message|] eqn:F.
  - rewrite (db_execute_fault _ _ _ _ _ F). reflexivity.
  - rewrite (db_execute_ok _ _ _ _ F). reflexivity.
Qed.

(** ** customer.subscription.created / customer.subscription.updated *)

(** C3, as the spec states it, fails: on a database with no row for
    ["sub_1"], a verified [customer.subscription.created] event for
    ["sub_1"] is acknowledged with 200 and no row for that provider id is
    in the table afterwards. *)
Lemma subscription_created_inserts_nothing :
  verified test_stripe (signed "created") (runtime_at 1700000100000 "a1")
    {| type := "customer.subscription.created"; data_object := SubscriptionObject sub_1 |}
  /\ answer test_stripe (signed "created") (runtime_at 1700000100000 "a1")
       (boot empty_db) = Some 200
  /\ ~ exists r,
       In r (subscriptions_table
               (db (after test_stripe (signed "created")
                      (runtime_at 1700000100000 "a1") (boot empty_db))))
       /\ subscriptions.stripeSubscriptionId r = Some "sub_1".
Proof.
  split; [reflexivity|]. split; [reflexivity|].
  intros (r & I & _). exact I.
Qed.

(** C3, amended. For a verified [customer.subscription.created] or
    [customer.subscription.updated] event whose statement the database
    accepts, the handler updates every stored row whose
    [stripeSubscriptionId] is the payload's id: status, the two period
    bounds (epoch seconds times 1000 milliseconds), [cancelAtPeriodEnd] and
    [updatedAt] (the current time) are set from the event and the other
    columns stay; every other row stays as it is; no row is inserted, so
    when no row has that provider id the table is unchanged; the other
    tables are unchanged and the answer is 200. *)
Theorem subscription_event_updates_rows stripe req rt w event s :
  verified stripe req rt event ->
  type event = "customer.subscription.created"
  \/ type event = "customer.subscription.updated" ->
  data_object event = SubscriptionObject s ->
  db_fault rt = None ->
  fst (POST stripe req rt w) = Ok {| body := json_received true; status := 200 |}
  /\ Forall2
       (fun r r' =>
          if eq_col (Subscription.id s) (subscriptions.stripeSubscriptionId r)
          then projected_from s (now rt) r r'
          else r' = r)
       (subscriptions_table (db w))
       (subscriptions_table (db (after stripe req rt w)))
  /\ (existsb (where_stripeSubscriptionId (Subscription.id s)) (subscriptions_table (db w)) = false ->
      subscriptions_table (db (after stripe req rt w)) = subscriptions_table (db w))
  /\ invoices_table (db (after stripe req rt w)) = invoices_table (db w)
  /\ paymentMethods_table (db (after stripe req rt w)) = paymentMethods_table (db w).
Proof.
  intros V T O F. unfold after.
  rewrite (POST_subscription_update _ _ _ w _ _ V T O), F. simpl.
  repeat split.
  - eapply Forall2_impl; [|apply update_where_rows].
    intros r r' ->. unfold where_stripeSubscriptionId.
    destruct (eq_col (Subscription.id s) (subscriptions.stripeSubscriptionId r));
      [unfold projected_from; simpl; repeat split | reflexivity].
  - apply update_where_no_match.
Qed.

Lemma subscription_event_updates_rows_witness :
  subscriptions_table
    (db (after test_stripe (signed "updated") (runtime_at 1700000100000 "a1")
           (boot db_with_sub_1)))
  = [ {| subscriptions.id := "7d0c"; subscriptions.userId := "user_1";
         subscriptions.stripeSubscriptionId := Some "sub_1";
         subscriptions.stripeCustomerId := Some "cus_9";
         subscriptions.stripePriceId := Some "price_pro_monthly";
         subscriptions.status := "active"; subscriptions.planId := "pro";
         subscriptions.currentPeriodStart := Some 1700000000000;
         subscriptions.currentPeriodEnd := Some 1702592000000;
         subscriptions.cancelAtPeriodEnd := Some false;
         subscriptions.createdAt := 1700000000123;
         subscriptions.updatedAt := 1700000100000 |} ]
  /\ invoices_table
       (db (after test_stripe (signed "updated") (runtime_at 1700000100000 "a1")
              (boot db_with_sub_1))) = [].
Proof.
  destruct (subscription_event_updates_rows test_stripe (signed "updated")
              (runtime_at 1700000100000 "a1") (boot db_with_sub_1)
              {| type := "customer.subscription.updated";
                 data_object := SubscriptionObject sub_1 |} sub_1)
    as (_ & _ & _ & I & _);
    [reflexivity | right; reflexivity | reflexivity | reflexivity |].
  split; [reflexivity | exact I].
Defined.

(** ** Replaying customer.subscription.updated *)

Lemma same_but_updatedAt_refl r : same_but_updatedAt r r.
Proof. unfold same_but_updatedAt. repeat split. Qed.

Lemma set_subscription_update_twice s t t' r :
  set_subscription_update s t' (set_subscription_update s t r)
  = set_subscription_update s t' r.
Proof. reflexivity. Qed.

Lemma replay_rows s t t' rows :
  Forall2 same_but_updatedAt
    (update_where (where_stripeSubscriptionId (Subscription.id s)) (set_subscription_update s t) rows)
    (update_where (where_stripeSubscriptionId (Subscription.id s)) (set_subscription_update s t') rows).
Proof.
  unfold update_where. induction rows as [|r rows IH]; simpl; constructor; auto.
  destruct (where_stripeSubscriptionId (Subscription.id s) r).
  - unfold same_but_updatedAt. simpl. repeat split.
  - apply same_but_updatedAt_refl.
Qed.

Lemma Forall2_same_but_updatedAt_refl rows : Forall2 same_but_updatedAt rows rows.
Proof. induction rows; constructor; auto using same_but_updatedAt_refl. Qed.

(** C4, as the spec states it, fails: the stored row for ["sub_1"] after a
    second delivery of the same [customer.subscription.updated] event, one
    second later, is not the row after the first delivery. *)
Lemma replay_changes_updatedAt :
  verified test_stripe (signed "updated") (runtime_at 1700000100000 "a1")
    {| type := "customer.subscription.updated"; data_object := SubscriptionObject sub_1 |}
  /\ verified test_stripe (signed "updated") (runtime_at 1700000101000 "a2")
       {| type := "customer.subscription.updated"; data_object := SubscriptionObject sub_1 |}
  /\ subscriptions_table
       (db (after test_stripe (signed "updated") (runtime_at 1700000101000 "a2")
              (after test_stripe (signed "updated") (runtime_at 1700000100000 "a1")
                 (boot db_with_sub_1))))
     <> subscriptions_table
          (db (after test_stripe (signed "updated") (runtime_at 1700000100000 "a1")
                 (boot db_with_sub_1))).
Proof.
  split; [reflexivity|]. split; [reflexivity|].
  vm_compute. intros H. discriminate H.
Qed.

(** C4, amended. When a verified [customer.subscription.updated] event is
    delivered twice with the same payload and the first delivery is
    acknowledged, every Subscription row after the second delivery equals
    the row after the first in every column except [updatedAt], which is the
    time of the latest applied delivery; the rows are identical when both
    deliveries read the same time. *)
Theorem replay_same_but_updatedAt stripe req1 rt1 req2 rt2 w event s :
  verified stripe req1 rt1 event ->
  verified stripe req2 rt2 event ->
  type event = "customer.subscription.updated" ->
  data_object event = SubscriptionObject s ->
  answer stripe req1 rt1 w = Some 200 ->
  let w1 := after stripe req1 rt1 w in
  let w2 := after stripe req2 rt2 w1 in
  Forall2 same_but_updatedAt (subscriptions_table (db w1)) (subscriptions_table (db w2))
  /\ (answer stripe req2 rt2 w1 = Some 200 ->
      forall r, In r (subscriptions_table (db w2)) ->
                subscriptions.stripeSubscriptionId r = Some (Subscription.id s) ->
                subscriptions.updatedAt r = now rt2)
  /\ (now rt2 = now rt1 -> subscriptions_table (db w2) = subscriptions_table (db w1))
  /\ invoices_table (db w2) = invoices_table (db w1)
  /\ paymentMethods_table (db w2) = paymentMethods_table (db w1).
Proof.
  intros V1 V2 T O A1. unfold answer, after in *.
  rewrite (POST_subscription_update _ _ _ w _ _ V1 (or_intror T) O) in *.
  destruct (db_fault rt1) as [m1|]; [discriminate A1|]. simpl.
  rewrite (POST_subscription_update _ _ _ _ _ _ V2 (or_intror T) O).
  destruct (db_fault rt2) as [m2|]; simpl.
  - repeat split.
    + apply Forall2_same_but_updatedAt_refl.
    + intros [=].
  - rewrite update_where_twice
      by (intros; auto using where_after_update, set_subscription_update_twice).
    repeat split.
    + apply replay_rows.
    + intros _ r I K.
      apply update_where_In in I as (r0 & _ & ->).
      destruct (where_stripeSubscriptionId (Subscription.id s) r0) eqn:E; [reflexivity|].
      apply where_stripeSubscriptionId_spec in K. congruence.
    + intros ->. reflexivity.
Qed.

Lemma replay_same_but_updatedAt_witness :
  Forall2 same_but_updatedAt
    (subscriptions_table
       (db (after test_stripe (signed "updated") (runtime_at 1700000100000 "a1")
              (boot db_with_sub_1))))
    (subscriptions_table
       (db (after test_stripe (signed "updated") (runtime_at 1700000101000 "a2")
              (after test_stripe (signed "updated") (runtime_at 1700000100000 "a1")
                 (boot db_with_sub_1))))).
Proof.
  destruct (replay_same_but_updatedAt test_stripe
              (signed "updated") (runtime_at 1700000100000 "a1")
              (signed "updated") (runtime_at 1700000101000 "a2")
              (boot db_with_sub_1)
              {| type := "customer.subscription.updated";
                 data_object := SubscriptionObject sub_1 |} sub_1)
    as (S & _); try reflexivity.
  exact S.
Defined.

(** ** customer.subscription.created, then customer.subscription.deleted *)

(** C5, as the spec states it, fails: on a database with no row for
    ["sub_1"], a [customer.subscription.created] event followed by a
    [customer.subscription.deleted] event for ["sub_1"], both acknowledged
    with 200, leaves no row for that provider id, canceled or not. *)
Lemma created_then_deleted_without_row :
  answer test_stripe (signed "created") (runtime_at 1700000100000 "a1") (boot empty_db)
    = Some 200
  /\ answer test_stripe (signed "deleted") (runtime_at 1700000200000 "a2")
       (after test_stripe (signed "created") (runtime_at 1700000100000 "a1")
          (boot empty_db)) = Some 200
  /\ ~ exists r,
       In r (subscriptions_table
               (db (after test_stripe (signed "deleted") (runtime_at 1700000200000 "a2")
                      (after test_stripe (signed "created")
                         (runtime_at 1700000100000 "a1") (boot empty_db)))))
       /\ subscriptions.stripeSubscriptionId r = Some "sub_1".
Proof.
  split; [reflexivity|]. split; [reflexivity|].
  intros (r & I & _). exact I.
Qed.

Lemma canceled_rows id t d r :
  In r (subscriptions_table (subscription_canceled id t d)) ->
  subscriptions.stripeSubscriptionId r = Some id ->
  subscriptions.status r = "canceled" /\ subscriptions.updatedAt r = t.
Proof.
  simpl. intros I E. apply update_where_In in I as (r0 & _ & ->).
  destruct (where_stripeSubscriptionId id r0) eqn:W; [split; reflexivity|].
  apply where_stripeSubscriptionId_spec in E. congruence.
Qed.

Lemma canceled_rows_from id t d :
  Forall2
    (fun r r' =>
       if eq_col id (subscriptions.stripeSubscriptionId r)
       then canceled_from t r r' else r' = r)
    (subscriptions_table d)
    (subscriptions_table (subscription_canceled id t d)).
Proof.
  simpl. eapply Forall2_impl; [|apply update_where_rows].
  intros r r' ->. unfold where_stripeSubscriptionId.
  destruct (eq_col id (subscriptions.stripeSubscriptionId r));
    [unfold canceled_from; simpl; repeat split | reflexivity].
Qed.

(** The two subscription statements write none of the columns [C] below,
    so each row keeps them. *)
Lemma canceled_keeps {C} (col : subscriptions.row -> C) id t d :
  (forall r, col (set_subscription_canceled t r) = col r) ->
  map col (subscriptions_table (subscription_canceled id t d))
  = map col (subscriptions_table d).
Proof. intros K. simpl. now apply update_where_keeps. Qed.

Lemma updated_keeps {C} (col : subscriptions.row -> C) s t d :
  (forall r, col (set_subscription_update s t r) = col r) ->
  map col (subscriptions_table (subscription_updated s t d))
  = map col (subscriptions_table d).
Proof. intros K. simpl. now apply update_where_keeps. Qed.

(** C5, amended. After a verified [customer.subscription.created] event and
    then a verified, acknowledged [customer.subscription.deleted] event for
    the same provider id, every stored row with that provider id has status
    ['canceled'] and [updatedAt] the time of the deletion; the table holds
    the same rows (by [id] and provider id, in the same order) as before the
    two events, so a row for that provider id is there afterwards exactly
    when one was there before: [customer.subscription.deleted] sets status
    and [updatedAt] of the matching rows and never deletes (or inserts) a
    row, and it leaves rows with another provider id, and the other tables,
    as they were. *)
Theorem created_then_deleted_keeps_row stripe req1 rt1 req2 rt2 w created deleted s :
  verified stripe req1 rt1 created ->
  type created = "customer.subscription.created" ->
  data_object created = SubscriptionObject s ->
  verified stripe req2 rt2 deleted ->
  type deleted = "customer.subscription.deleted" ->
  object_id (data_object deleted) = Subscription.id s ->
  let w1 := after stripe req1 rt1 w in
  let w2 := after stripe req2 rt2 w1 in
  answer stripe req2 rt2 w1 = Some 200 ->
  (forall r, In r (subscriptions_table (db w2)) ->
             subscriptions.stripeSubscriptionId r = Some (Subscription.id s) ->
             subscriptions.status r = "canceled" /\ subscriptions.updatedAt r = now rt2)
  /\ map subscriptions.id (subscriptions_table (db w2))
     = map subscriptions.id (subscriptions_table (db w))
  /\ map subscriptions.stripeSubscriptionId (subscriptions_table (db w2))
     = map subscriptions.stripeSubscriptionId (subscriptions_table (db w))
  /\ Forall2
       (fun r1 r2 =>
          if eq_col (Subscription.id s) (subscriptions.stripeSubscriptionId r1)
          then canceled_from (now rt2) r1 r2
          else r2 = r1)
       (subscriptions_table (db w1)) (subscriptions_table (db w2))
  /\ invoices_table (db w2) = invoices_table (db w)
  /\ paymentMethods_table (db w2) = paymentMethods_table (db w).
Proof.
  intros V1 T1 O1 V2 T2 K. unfold answer, after.
  rewrite (POST_subscription_update _ _ _ w _ _ V1 (or_introl T1) O1).
  rewrite !(POST_subscription_deleted _ _ _ _ _ V2 T2), K.
  destruct (db_fault rt2) as [m2|]; [intros [=]|]. intros _.
  destruct (db_fault rt1) as [m1|]; cbn [fst snd db sent log];
    (split; [apply canceled_rows|]);
    (split; [rewrite canceled_keeps, ?updated_keeps; reflexivity|]);
    (split; [rewrite canceled_keeps, ?updated_keeps; reflexivity|]);
    (split; [apply canceled_rows_from|]);
    split; reflexivity.
Qed.

Lemma created_then_deleted_keeps_row_witness :
  subscriptions_table
    (db (after test_stripe (signed "deleted") (runtime_at 1700000200000 "a2")
           (after test_stripe (signed "created") (runtime_at 1700000100000 "a1")
              (boot db_with_sub_1))))
  = [ {| subscriptions.id := "7d0c"; subscriptions.userId := "user_1";
         subscriptions.stripeSubscriptionId := Some "sub_1";
         subscriptions.stripeCustomerId := Some "cus_9";
         subscriptions.stripePriceId := Some "price_pro_monthly";
         subscriptions.status := "canceled"; subscriptions.planId := "pro";
         subscriptions.currentPeriodStart := Some 1700000000000;
         subscriptions.currentPeriodEnd := Some 1702592000000;
         subscriptions.cancelAtPeriodEnd := Some false;
         subscriptions.createdAt := 1700000000123;
         subscriptions.updatedAt := 1700000200000 |} ]
  /\ map subscriptions.id
       (subscriptions_table
          (db (after test_stripe (signed "deleted") (runtime_at 1700000200000 "a2")
                 (after test_stripe (signed "created") (runtime_at 1700000100000 "a1")
                    (boot db_with_sub_1)))))
     = ["7d0c"].
Proof.
  destruct (created_then_deleted_keeps_row test_stripe
              (signed "created") (runtime_at 1700000100000 "a1")
              (signed "deleted") (runtime_at 1700000200000 "a2")
              (boot db_with_sub_1)
              {| type := "customer.subscription.created";
                 data_object := SubscriptionObject sub_1 |}
              {| type := "customer.subscription.deleted";
                 data_object := SubscriptionObject sub_1 |} sub_1)
    as (_ & I & _); try reflexivity.
  split; [reflexivity | exact I].
Defined.

(** ** invoice.payment_succeeded *)

(** C6, as the spec states it, fails on the conflict path: with a row for
    ["in_123"] stored with amount 0 and currency ["eur"], the event with
    [amount_paid: 999] and [currency: "usd"] is acknowledged with 200 and
    the row for ["in_123"] still has amount 0 and currency ["eur"]. *)
Lemma conflict_update_keeps_amount :
  verified test_stripe (signed "paid") (runtime_at 1700000100000 "a1")
    {| type := "invoice.payment_succeeded"; data_object := InvoiceObject in_123 |}
  /\ answer test_stripe (signed "paid") (runtime_at 1700000100000 "a1")
       (boot db_with_in_123) = Some 200
  /\ exists r,
       In r (invoices_table
               (db (after test_stripe (signed "paid") (runtime_at 1700000100000 "a1")
                      (boot db_with_in_123))))
       /\ invoices.stripeInvoiceId r = Some (Invoice.id in_123)
       /\ invoices.amount r <> Invoice.amount_paid in_123
       /\ invoices.currency r <> Invoice.currency in_123.
Proof.
  split; [reflexivity|]. split; [reflexivity|].
  exists (set_invoice_paid in_123 row_in_123_open).
  split; [left; reflexivity|]. split; [reflexivity|].
  split; [intros H; discriminate H | intros H; discriminate H].
Qed.

(** C6, amended. For a verified [invoice.payment_succeeded] event whose
    statement the database accepts, the handler upserts the Invoice row
    keyed by the provider invoice id and the answer is 200.  On the insert
    path (no stored row has that [stripeInvoiceId]) one row is appended with
    [stripeInvoiceId] the payload's id, status ['paid'], [amount] the
    payload's [amount_paid], [currency] the payload's currency and the
    hosted and PDF URLs.  On the conflict-update path the stored row for that
    id gets status ['paid'] and the two URLs, and keeps its [amount] and
    [currency] and every other column.  Rows for other invoices and the
    other tables are unchanged. *)
Theorem invoice_succeeded_upserts stripe req rt w event i :
  verified stripe req rt event ->
  type event = "invoice.payment_succeeded" ->
  data_object event = InvoiceObject i ->
  db_fault rt = None ->
  fst (POST stripe req rt w) = Ok {| body := json_received true; status := 200 |}
  /\ (existsb (conflict_stripeInvoiceId (Invoice.id i)) (invoices_table (db w)) = false ->
      invoices_table (db (after stripe req rt w))
      = invoices_table (db w)
        ++ [ {| invoices.id := randomUUID rt;
                invoices.userId := Invoice.customer i;
                invoices.subscriptionId := None;
                invoices.stripeInvoiceId := Some (Invoice.id i);
                invoices.amount := Invoice.amount_paid i;
                invoices.currency := Invoice.currency i;
                invoices.status := "paid";
                invoices.hostedInvoiceUrl := Invoice.hosted_invoice_url i;
                invoices.invoicePdf := Invoice.invoice_pdf i;
                invoices.createdAt := now rt |} ]
      /\ invoices_for (Invoice.id i) (db (after stripe req rt w)) = 1%nat)
  /\ (existsb (conflict_stripeInvoiceId (Invoice.id i)) (invoices_table (db w)) = true ->
      Forall2
        (fun r r' =>
           if eq_col (Invoice.id i) (invoices.stripeInvoiceId r)
           then paid_from i r r'
           else r' = r)
        (invoices_table (db w))
        (invoices_table (db (after stripe req rt w))))
  /\ subscriptions_table (db (after stripe req rt w)) = subscriptions_table (db w)
  /\ paymentMethods_table (db (after stripe req rt w)) = paymentMethods_table (db w).
Proof.
  intros V T O F. unfold after.
  rewrite (POST_invoice_succeeded _ _ _ w _ _ V T O), F. simpl.
  repeat split.
  - now rewrite (upsert_insert _ _ _ _ H).
  - change (invoices_for (Invoice.id i)
              (invoice_upserted i (randomUUID rt) (now rt) (db w)) = 1%nat).
    rewrite invoices_for_upserted, String.eqb_refl.
    unfold invoices_for. now rewrite (filter_none _ _ H).
  - intros E. rewrite (upsert_conflict _ _ _ _ E).
    eapply Forall2_impl; [|apply update_where_rows].
    intros r r' ->. unfold conflict_stripeInvoiceId.
    destruct (eq_col (Invoice.id i) (invoices.stripeInvoiceId r));
      [unfold paid_from; simpl; repeat split | reflexivity].
Qed.

(** The concrete scenario of the spec: one row for ["in_123"], amount 999,
    status ['paid']. *)
Lemma invoice_succeeded_upserts_witness :
  invoices_table
    (db (after test_stripe (signed "paid") (runtime_at 1700000100000 "a1")
           (boot empty_db)))
  = [ {| invoices.id := "a1"; invoices.userId := "cus_9";
         invoices.subscriptionId := None;
         invoices.stripeInvoiceId := Some "in_123";
         invoices.amount := 999; invoices.currency := "usd";
         invoices.status := "paid";
         invoices.hostedInvoiceUrl := Some "https://x";
         invoices.invoicePdf := Some "https://y";
         invoices.createdAt := 1700000100000 |} ].
Proof.
  destruct (invoice_succeeded_upserts test_stripe (signed "paid")
              (runtime_at 1700000100000 "a1") (boot empty_db)
              {| type := "invoice.payment_succeeded";
                 data_object := InvoiceObject in_123 |} in_123)
    as (_ & I & _); [reflexivity | reflexivity | reflexivity | reflexivity |].
  exact (proj1 (I eq_refl)).
Defined.

(** C10. When an [invoice.payment_succeeded] event inserts a new Invoice
    row, the row's [userId] is the payload's [customer], the provider's
    customer id, as it came; the request sends the one INSERT to the
    database and no SELECT, so nothing maps the customer to a local user. *)
Theorem invoice_userId_is_customer stripe req rt w event i r :
  verified stripe req rt event ->
  type event = "invoice.payment_succeeded" ->
  data_object event = InvoiceObject i ->
  invoices_table (db (after stripe req rt w)) = invoices_table (db w) ++ [r] ->
  invoices.userId r = Invoice.customer i
  /\ issued (after stripe req rt w) = issued w ++ [Insert T_invoices].
Proof.
  intros V T O. unfold after.
  rewrite (POST_invoice_succeeded _ _ _ w _ _ V T O).
  assert (L : forall rows : list invoices.row, rows <> rows ++ [r]).
  { intros rows H. apply (f_equal (@List.length _)) in H.
    rewrite length_app in H. simpl in H. lia. }
  destruct (db_fault rt) as [m|]; simpl.
  - intros H. now apply L in H.
  - unfold insert_on_conflict_do_update.
    destruct (existsb _ _).
    + intros H. apply (f_equal (@List.length _)) in H.
      rewrite update_where_length, length_app in H. simpl in H. lia.
    + intros H. apply app_inv_head in H. injection H as <-. split; reflexivity.
Qed.

Lemma invoice_userId_is_customer_witness :
  invoices.userId
    {| invoices.id := "a1"; invoices.userId := "cus_9";
       invoices.subscriptionId := None;
       invoices.stripeInvoiceId := Some "in_123";
       invoices.amount := 999; invoices.currency := "usd";
       invoices.status := "paid";
       invoices.hostedInvoiceUrl := Some "https://x";
       invoices.invoicePdf := Some "https://y";
       invoices.createdAt := 1700000100000 |} = Invoice.customer in_123
  /\ issued (after test_stripe (signed "paid") (runtime_at 1700000100000 "a1")
               (boot db_with_sub_1)) = [Insert T_invoices].
Proof.
  apply (invoice_userId_is_customer test_stripe (signed "paid")
           (runtime_at 1700000100000 "a1") (boot db_with_sub_1)
           {| type := "invoice.payment_succeeded";
              data_object := InvoiceObject in_123 |} in_123);
    reflexivity.
Defined.

(** ** One row per provider id *)

Lemma db_execute_projected stmt apply rt w :
  Projected rt (db w) (apply (db w)) ->
  Projected rt (db w) (db (snd (db_execute stmt apply rt w))).
Proof.
  intros P. unfold db_execute. destruct (db_fault rt); simpl; [constructor | exact P].
Qed.

Lemma dispatch_projected event rt w :
  Projected rt (db w) (db (snd (dispatch event rt w))).
Proof.
  destruct (dispatch_cases event).
  - destruct (data_object event) as [s|i|id]; try apply projected_none.
    rewrite handleSubscriptionUpdate_statement.
    apply db_execute_projected, projected_updated.
  - rewrite handleSubscriptionDeleted_statement.
    apply db_execute_projected, projected_canceled.
  - destruct (data_object event) as [s|i|id]; try apply projected_none.
    rewrite handleInvoicePaymentSucceeded_statement.
    apply db_execute_projected, projected_upserted.
  - apply projected_none.
  - apply projected_none.
Qed.

Lemma POST_projected stripe req rt w :
  Projected rt (db w) (db (after stripe req rt w)).
Proof.
  unfold after.
  destruct (constructEvent stripe (text req)
              (headers_get "stripe-signature" (headers req))
              (STRIPE_WEBHOOK_SECRET rt)) as [error|event] eqn:E.
  - rewrite (POST_rejected _ _ _ w _ E). apply projected_none.
  - rewrite (POST_verified _ _ _ w _ E).
    pose proof (dispatch_projected event rt w) as P.
    destruct (dispatch event rt w) as [[[]|error] w']; exact P.
Qed.

Lemma projected_counts rt d d' :
  Projected rt d d' ->
  (forall id, subscriptions_for id d' = subscriptions_for id d)
  /\ (forall id, (invoices_for id d' <= Nat.max 1 (invoices_for id d))%nat).
Proof.
  intros [|s|id0|i]; split; intros id.
  - reflexivity.
  - lia.
  - unfold subscriptions_for. simpl. apply update_where_count.
    intros; apply where_after_update.
  - unfold invoices_for, subscription_updated, subscription_canceled, on_subscriptions.
    cbn [invoices_table]. lia.
  - unfold subscriptions_for. simpl. apply update_where_count.
    intros; apply where_after_canceled.
  - unfold invoices_for, subscription_updated, subscription_canceled, on_subscriptions.
    cbn [invoices_table]. lia.
  - reflexivity.
  - rewrite invoices_for_upserted. destruct (String.eqb (Invoice.id i) id); lia.
Qed.

(** C2. No request creates a second row for a provider id: after any POST
    the number of Subscription rows for a provider subscription id is what
    it was, and the number of Invoice rows for a provider invoice id is at
    most the larger of 1 and what it was, so the schema's uniqueness of the
    two columns is kept.  And when an [invoice.payment_succeeded] event is
    acknowledged and then delivered a second time, there is exactly one
    Invoice row with its [stripeInvoiceId], after the first delivery and
    after the second: the statement is an insert with
    [onConflictDoUpdate] on [stripeInvoiceId]. *)
Theorem one_invoice_row_per_provider_id stripe w :
  unique_provider_ids (db w) ->
  (forall req rt,
      unique_provider_ids (db (after stripe req rt w))
      /\ (forall id, subscriptions_for id (db (after stripe req rt w))
                     = subscriptions_for id (db w))
      /\ (forall id, (invoices_for id (db (after stripe req rt w))
                      <= Nat.max 1 (invoices_for id (db w)))%nat))
  /\ (forall req1 rt1 req2 rt2 event i,
      verified stripe req1 rt1 event ->
      verified stripe req2 rt2 event ->
      type event = "invoice.payment_succeeded" ->
      data_object event = InvoiceObject i ->
      answer stripe req1 rt1 w = Some 200 ->
      invoices_for (Invoice.id i) (db (after stripe req1 rt1 w)) = 1%nat
      /\ invoices_for (Invoice.id i)
           (db (after stripe req2 rt2 (after stripe req1 rt1 w))) = 1%nat).
Proof.
  intros [US UI]. split.
  - intros req rt.
    destruct (projected_counts _ _ _ (POST_projected stripe req rt w)) as [S I].
    repeat split; auto.
    + intros id. rewrite S. apply US.
    + intros id. specialize (I id). specialize (UI id). lia.
  - intros req1 rt1 req2 rt2 event i V1 V2 T O A1.
    unfold answer, after in *.
    rewrite (POST_invoice_succeeded _ _ _ w _ _ V1 T O) in *.
    destruct (db_fault rt1) as [m1|]; [discriminate A1|]. cbn [fst snd db sent].
    assert (One : invoices_for (Invoice.id i)
                    (invoice_upserted i (randomUUID rt1) (now rt1) (db w)) = 1%nat).
    { rewrite invoices_for_upserted, String.eqb_refl. specialize (UI (Invoice.id i)). lia. }
    split; [exact One|].
    rewrite (POST_invoice_succeeded _ _ _ _ _ _ V2 T O).
    destruct (db_fault rt2) as [m2|]; cbn [fst snd db sent log]; [exact One|].
    rewrite invoices_for_upserted, String.eqb_refl, One. reflexivity.
Qed.

Lemma one_invoice_row_per_provider_id_witness :
  invoices_for "in_123"
    (db (after test_stripe (signed "paid") (runtime_at 1700000101000 "a2")
           (after test_stripe (signed "paid") (runtime_at 1700000100000 "a1")
              (boot db_with_sub_1)))) = 1%nat.
Proof.
  destruct (one_invoice_row_per_provider_id test_stripe (boot db_with_sub_1))
    as [_ Twice].
  - split; intros id; unfold subscriptions_for, invoices_for;
      cbn [db boot db_with_sub_1 subscriptions_table invoices_table filter];
      [destruct (where_stripeSubscriptionId id row_sub_1); simpl; lia | simpl; lia].
  - destruct (Twice (signed "paid") (runtime_at 1700000100000 "a1")
                (signed "paid") (runtime_at 1700000101000 "a2")
                {| type := "invoice.payment_succeeded";
                   data_object := InvoiceObject in_123 |} in_123)
      as [_ Second]; [reflexivity | reflexivity | reflexivity | reflexivity | reflexivity |].
    exact Second.
Defined.

(** ** The route as a whole *)

(** X1. Once the body of the request is read, [POST] always answers: no
    exception escapes the two [try] blocks, the status is 200, 400 or 500,
    and it is 400 exactly when the verification of the request fails. *)
Theorem POST_status stripe req rt w :
  (exists response,
      fst (POST stripe req rt w) = Ok response
      /\ (status response = 200 \/ status response = 400 \/ status response = 500))
  /\ (answer stripe req rt w = Some 400 <-> exists error, rejected stripe req rt error).
Proof.
  unfold answer, rejected.
  destruct (constructEvent stripe (text req)
              (headers_get "stripe-signature" (headers req))
              (STRIPE_WEBHOOK_SECRET rt)) as [error|event] eqn:E.
  - rewrite (POST_rejected _ _ _ w _ E). simpl. split; [eauto|].
    split; eauto.
  - rewrite (POST_verified _ _ _ w _ E).
    destruct (dispatch event rt w) as [[[]|error] w']; simpl;
      (split; [eauto|]); split; intros H;
      solve [discriminate H | destruct H as [? H]; discriminate H].
Qed.

Lemma projected_frame rt d d' :
  Projected rt d d' ->
  paymentMethods_table d' = paymentMethods_table d
  /\ map subscription_identity (subscriptions_table d')
     = map subscription_identity (subscriptions_table d)
  /\ exists inserted,
       (List.length inserted <= 1)%nat
       /\ map invoice_identity (invoices_table d')
          = map invoice_identity (invoices_table d ++ inserted).
Proof.
  intros [|s|id|i]; (split; [reflexivity|]); split.
  - reflexivity.
  - exists []. rewrite app_nil_r. split; [simpl; lia | reflexivity].
  - simpl. now apply update_where_keeps.
  - exists []. rewrite app_nil_r. split; [simpl; lia | reflexivity].
  - simpl. now apply update_where_keeps.
  - exists []. rewrite app_nil_r. split; [simpl; lia | reflexivity].
  - reflexivity.
  - simpl. unfold insert_on_conflict_do_update.
    destruct (existsb _ _).
    + exists []. rewrite app_nil_r. split; [simpl; lia|].
      now apply update_where_keeps.
    + exists [invoice_values (randomUUID rt) i (now rt)]. split; [simpl; lia | reflexivity].
Qed.

(** X2. What no webhook request does, whatever the event and whether it is
    verified or not: it never writes the payment methods table; it never
    inserts, deletes or reorders a Subscription row, and never changes a
    Subscription's [id], [userId], provider ids, [planId] or [createdAt]; it
    never deletes or reorders an Invoice row, inserts at most one, and never
    changes a stored Invoice's [id], [userId], [subscriptionId],
    [stripeInvoiceId], [amount], [currency] or [createdAt]. *)
Theorem POST_frame stripe req rt w :
  paymentMethods_table (db (after stripe req rt w)) = paymentMethods_table (db w)
  /\ map subscription_identity (subscriptions_table (db (after stripe req rt w)))
     = map subscription_identity (subscriptions_table (db w))
  /\ exists inserted,
       (List.length inserted <= 1)%nat
       /\ map invoice_identity (invoices_table (db (after stripe req rt w)))
          = map invoice_identity (invoices_table (db w) ++ inserted).
Proof. apply (projected_frame rt), POST_projected. Qed.

Lemma set_invoice_paid_values i uuid t :
  set_invoice_paid i (invoice_values uuid i t) = invoice_values uuid i t.
Proof. reflexivity. Qed.

Lemma set_invoice_paid_twice i r :
  set_invoice_paid i (set_invoice_paid i r) = set_invoice_paid i r.
Proof. reflexivity. Qed.

Lemma update_where_app {R} (p : R -> bool) (set : R -> R) rows rows' :
  update_where p set (rows ++ rows') = update_where p set rows ++ update_where p set rows'.
Proof. unfold update_where. apply map_app. Qed.

Lemma existsb_update_where {R} (p : R -> bool) (set : R -> R) rows :
  (forall r, p (set r) = p r) ->
  existsb p (update_where p set rows) = existsb p rows.
Proof.
  intros K. unfold update_where. induction rows as [|r rows IH]; simpl; [reflexivity|].
  rewrite IH. destruct (p r) eqn:E; [rewrite K, E | rewrite E]; reflexivity.
Qed.

(** The upsert of an invoice, applied a second time, changes nothing,
    whatever identifier and time the second request draws. *)
Lemma invoice_upserted_twice i uuid t uuid' t' d :
  invoice_upserted i uuid' t' (invoice_upserted i uuid t d) = invoice_upserted i uuid t d.
Proof.
  unfold invoice_upserted, on_invoices. cbn [invoices_table subscriptions_table
                                            paymentMethods_table]. f_equal.
  unfold insert_on_conflict_do_update at 2.
  destruct (existsb (conflict_stripeInvoiceId (Invoice.id i)) (invoices_table d)) eqn:E.
  - unfold insert_on_conflict_do_update.
    rewrite existsb_update_where, E by (intros; apply conflict_after_paid).
    apply update_where_twice.
    + intros; apply conflict_after_paid.
    + intros; apply set_invoice_paid_twice.
  - assert (C : conflict_stripeInvoiceId (Invoice.id i) (invoice_values uuid i t) = true)
      by (unfold conflict_stripeInvoiceId; simpl; apply String.eqb_refl).
    unfold insert_on_conflict_do_update.
    rewrite existsb_app, E. cbn [existsb orb]. rewrite C. cbn [orb].
    rewrite update_where_app, (update_where_no_match _ _ _ E).
    unfold update_where. cbn [map]. rewrite C. reflexivity.
Qed.

(** X3. Replaying [invoice.payment_succeeded] is idempotent on every column
    of every table: once a delivery is acknowledged, a second delivery of
    the same event, at any later time, leaves the database exactly as the
    first left it. *)
Theorem invoice_replay_identical stripe req1 rt1 req2 rt2 w event i :
  verified stripe req1 rt1 event ->
  verified stripe req2 rt2 event ->
  type event = "invoice.payment_succeeded" ->
  data_object event = InvoiceObject i ->
  answer stripe req1 rt1 w = Some 200 ->
  db (after stripe req2 rt2 (after stripe req1 rt1 w)) = db (after stripe req1 rt1 w).
Proof.
  intros V1 V2 T O A1. unfold answer, after in *.
  rewrite (POST_invoice_succeeded _ _ _ w _ _ V1 T O) in *.
  destruct (db_fault rt1) as [m1|]; [discriminate A1|]. cbn [fst snd].
  rewrite (POST_invoice_succeeded _ _ _ _ _ _ V2 T O).
  destruct (db_fault rt2) as [m2|]; cbn [fst snd db sent log]; [reflexivity|].
  apply invoice_upserted_twice.
Qed.

Lemma invoice_replay_identical_witness :
  db (after test_stripe (signed "paid") (runtime_at 1700000101000 "a2")
        (after test_stripe (signed "paid") (runtime_at 1700000100000 "a1")
           (boot db_with_in_123)))
  = db (after test_stripe (signed "paid") (runtime_at 1700000100000 "a1")
          (boot db_with_in_123)).
Proof.
  apply (invoice_replay_identical test_stripe
           (signed "paid") (runtime_at 1700000100000 "a1")
           (signed "paid") (runtime_at 1700000101000 "a2")
           (boot db_with_in_123)
           {| type := "invoice.payment_succeeded"; data_object := InvoiceObject in_123 |}
           in_123); reflexivity.
Defined.

Lemma updated_rows s t d r :
  In r (subscriptions_table (subscription_updated s t d)) ->
  subscriptions.stripeSubscriptionId r = Some (Subscription.id s) ->
  subscriptions.status r = Subscription.status s /\ subscriptions.updatedAt r = t.
Proof.
  simpl. intros I E. apply update_where_In in I as (r0 & _ & ->).
  destruct (where_stripeSubscriptionId (Subscription.id s) r0) eqn:W;
    [split; reflexivity|].
  apply where_stripeSubscriptionId_spec in E. congruence.
Qed.

(** X4. The subscription events do not commute: the later delivery wins.
    When an update and a deletion for the same provider id are both
    acknowledged, the rows for that id end with status ['canceled'] if the
    deletion comes last, and with the status of the update's payload if the
    update comes last: nothing keeps a late
    [customer.subscription.updated] from overwriting ['canceled']. *)
Theorem subscription_last_delivery_wins stripe req_u rt_u req_d rt_d w updated deleted s :
  verified stripe req_u rt_u updated ->
  type updated = "customer.subscription.created"
  \/ type updated = "customer.subscription.updated" ->
  data_object updated = SubscriptionObject s ->
  verified stripe req_d rt_d deleted ->
  type deleted = "customer.subscription.deleted" ->
  object_id (data_object deleted) = Subscription.id s ->
  db_fault rt_u = None ->
  db_fault rt_d = None ->
  (forall r,
      In r (subscriptions_table
              (db (after stripe req_d rt_d (after stripe req_u rt_u w)))) ->
      subscriptions.stripeSubscriptionId r = Some (Subscription.id s) ->
      subscriptions.status r = "canceled")
  /\ (forall r,
      In r (subscriptions_table
              (db (after stripe req_u rt_u (after stripe req_d rt_d w)))) ->
      subscriptions.stripeSubscriptionId r = Some (Subscription.id s) ->
      subscriptions.status r = Subscription.status s).
Proof.
  intros Vu Tu Ou Vd Td K Fu Fd. unfold after.
  rewrite !(POST_subscription_update _ _ _ _ _ _ Vu Tu Ou), Fu.
  rewrite !(POST_subscription_deleted _ _ _ _ _ Vd Td), Fd, K.
  cbn [fst snd db sent]. split; intros r I E.
  - now apply canceled_rows in I.
  - now apply updated_rows in I.
Qed.

Lemma subscription_last_delivery_wins_witness :
  Forall (fun r => subscriptions.status r = "active")
    (subscriptions_table
       (db (after test_stripe (signed "updated") (runtime_at 1700000200000 "a2")
              (after test_stripe (signed "deleted") (runtime_at 1700000100000 "a1")
                 (boot db_with_sub_1))))).
Proof.
  destruct (subscription_last_delivery_wins test_stripe
              (signed "updated") (runtime_at 1700000200000 "a2")
              (signed "deleted") (runtime_at 1700000100000 "a1")
              (boot db_with_sub_1)
              {| type := "customer.subscription.updated";
                 data_object := SubscriptionObject sub_1 |}
              {| type := "customer.subscription.deleted";
                 data_object := SubscriptionObject sub_1 |} sub_1)
    as [_ Late];
    [reflexivity | right; reflexivity | reflexivity | reflexivity | reflexivity
    | reflexivity | reflexivity | reflexivity |].
  apply Forall_forall. intros r I. apply (Late r I).
  cbv in I. destruct I as [<-|[]]. reflexivity.
Defined.

(** ** The server actions *)

Ltac run_action :=
  unfold createSubscription, cancelSubscription, abind, atry, stripe_call, await,
    areturn, athrow, lift, action_console_error, db_select, db_statement,
    crypto_randomUUID, defaultNow, new_Date_now;
  cbn beta iota zeta.

(** Case analysis on the next answer of a collaborator. *)
Ltac next_answer :=
  match goal with
  | |- context [match ?x with _ => _ end] =>
      lazymatch x with
      | context [match _ with _ => _ end] => fail
      | _ => destruct x eqn:?
      end
  end;
  cbn -[insert_subscription customer_query update_where filter existsb plans_get
        String.append].

(** X5. Without a signed-in user both server actions throw
    [Error("Unauthorized")] and do nothing else: no call to Stripe, no
    statement sent to the database, nothing logged. *)
Theorem actions_require_user services planId subscriptionId immediate rt st session :
  getSession services = inr session ->
  session_user session = None ->
  createSubscription services planId rt st = (Thrown (Error "Unauthorized"), st)
  /\ cancelSubscription services subscriptionId immediate rt st
     = (Thrown (Error "Unauthorized"), st).
Proof.
  intros G U. run_action. rewrite G. cbn. rewrite U. split; reflexivity.
Qed.

Lemma actions_require_user_witness :
  createSubscription (test_services None ["cus_9"]) "pro"
    (runtime_at 1700000000123 "7d0c") (serve db_with_sub_1)
  = (Thrown (Error "Unauthorized"), serve db_with_sub_1)
  /\ cancelSubscription (test_services (Some {| user := None |}) ["cus_9"]) "sub_1"
       (Some true) (runtime_at 1700000000123 "7d0c") (serve db_with_sub_1)
     = (Thrown (Error "Unauthorized"), serve db_with_sub_1).
Proof.
  split.
  - apply (actions_require_user (test_services None ["cus_9"]) "pro" "sub_1" None
             (runtime_at 1700000000123 "7d0c") (serve db_with_sub_1) None);
      reflexivity.
  - apply (actions_require_user (test_services (Some {| user := None |}) ["cus_9"])
             "pro" "sub_1" (Some true)
             (runtime_at 1700000000123 "7d0c") (serve db_with_sub_1)
             (Some {| user := None |})); reflexivity.
Defined.

Lemma own_property_plans planId :
  planId <> "basic" -> planId <> "pro" -> planId <> "enterprise" ->
  own_property planId PAYMENT_CONFIG_plans = None.
Proof.
  intros N1 N2 N3. unfold PAYMENT_CONFIG_plans. cbn [own_property].
  destruct (String.eqb_spec "basic" planId); [congruence|].
  destruct (String.eqb_spec "pro" planId); [congruence|].
  destruct (String.eqb_spec "enterprise" planId); [congruence|].
  reflexivity.
Qed.

(** X6. For a signed-in user and a [planId] that is no key of
    [PAYMENT_CONFIG.plans] and names no property of [Object.prototype],
    [createSubscription] throws [Error("Invalid plan")] and does nothing
    else: no call to Stripe, no statement, nothing logged. *)
Theorem createSubscription_invalid_plan services planId rt st session u :
  getSession services = inr session ->
  session_user session = Some u ->
  planId <> "basic" -> planId <> "pro" -> planId <> "enterprise" ->
  Object_prototype_has services planId = false ->
  createSubscription services planId rt st = (Thrown (Error "Invalid plan"), st).
Proof.
  intros G U N1 N2 N3 P. run_action. rewrite G. cbn. rewrite U.
  unfold plans_get. rewrite (own_property_plans _ N1 N2 N3), P. reflexivity.
Qed.

Lemma createSubscription_invalid_plan_witness :
  createSubscription (test_services (signed_in alice) ["cus_9"]) "premium"
    (runtime_at 1700000000123 "7d0c") (serve db_with_sub_1)
  = (Thrown (Error "Invalid plan"), serve db_with_sub_1).
Proof.
  apply (createSubscription_invalid_plan (test_services (signed_in alice) ["cus_9"])
           "premium" (runtime_at 1700000000123 "7d0c") (serve db_with_sub_1)
           (signed_in alice) alice);
    try reflexivity; intros H; discriminate H.
Defined.

(** X7. The plan check lets the names of [Object.prototype] through: for a
    signed-in user and a [planId] such as ["toString"], which is no key of
    [PAYMENT_CONFIG.plans] but names an inherited property,
    [createSubscription] does not throw [Error("Invalid plan")]; it searches
    the customer at Stripe and, if it gets that far, asks Stripe for a
    subscription without a price. *)
Theorem createSubscription_inherited_plan services planId rt st session u :
  getSession services = inr session ->
  session_user session = Some u ->
  planId <> "basic" -> planId <> "pro" -> planId <> "enterprise" ->
  Object_prototype_has services planId = true ->
  fst (createSubscription services planId rt st) <> Thrown (Error "Invalid plan")
  /\ (exists calls,
        stripe_calls (snd (createSubscription services planId rt st))
        = stripe_calls st
          ++ customers_search_call
               (String.append "email:'" (String.append (email u) "'")) :: calls)
  /\ (forall customer price,
        In (subscriptions_create_call customer price)
          (stripe_calls (snd (createSubscription services planId rt st))) ->
        In (subscriptions_create_call customer price) (stripe_calls st)
        \/ price = None).
Proof.
  intros G U N1 N2 N3 P. run_action. rewrite G. cbn. rewrite U.
  unfold plans_get. rewrite (own_property_plans _ N1 N2 N3), P.
  cbn [plan_stripePriceId].
  repeat next_answer;
    (split; [intros H; discriminate H|]);
    (split; [rewrite <- ?app_assoc; cbn [app]; eauto|]);
    intros customer price I;
    rewrite ?in_app_iff in I; cbn [In] in I;
    intuition (try discriminate; try congruence);
    match goal with
    | H : subscriptions_create_call _ _ = subscriptions_create_call _ _ |- _ =>
        injection H as _ <-; now right
    end.
Qed.

Lemma createSubscription_inherited_plan_witness :
  fst (createSubscription (test_services (signed_in alice) ["cus_9"]) "toString"
         (runtime_at 1700000000123 "7d0c") (serve empty_db))
  <> Thrown (Error "Invalid plan").
Proof.
  apply (createSubscription_inherited_plan (test_services (signed_in alice) ["cus_9"])
           "toString" (runtime_at 1700000000123 "7d0c") (serve empty_db)
           (signed_in alice) alice);
    try reflexivity; intros H; discriminate H.
Defined.

(** A call of [createSubscription] that throws has written nothing. *)
Lemma createSubscription_thrown services planId rt st e st' :
  createSubscription services planId rt st = (Thrown e, st') ->
  db (world st') = db (world st).
Proof.
  run_action.
  repeat next_answer; intros E; try discriminate E; injection E as <- <-; reflexivity.
Qed.

(** X8. When [createSubscription] throws, no table has changed, and the
    error is the rejection of [getSession], [Error("Unauthorized")] or
    [Error("Invalid plan")], with nothing done, or else
    [Error("Failed to create subscription")], the cause being written to the
    console: the caller never sees an error of Stripe or of the database. *)
Theorem createSubscription_throws services planId rt st e st' :
  createSubscription services planId rt st = (Thrown e, st') ->
  db (world st') = db (world st)
  /\ ((getSession services = inl e /\ st' = st)
      \/ (e = Error "Unauthorized" /\ st' = st)
      \/ (e = Error "Invalid plan" /\ st' = st)
      \/ (e = Error "Failed to create subscription"
          /\ exists cause,
               error_log st'
               = error_log st ++ [("Error creating subscription:", cause)])).
Proof.
  run_action.
  repeat next_answer; intros E; try discriminate E; injection E as <- <-;
    (split; [reflexivity|]); cbn [error_log]; eauto 8.
Qed.

Lemma createSubscription_throws_witness :
  db (world (snd (createSubscription (test_services (signed_in alice) ["cus_9"]) "pro"
                    (runtime_down 1700000000123 "7d0c") (serve db_with_sub_1))))
  = db_with_sub_1.
Proof.
  apply (createSubscription_throws (test_services (signed_in alice) ["cus_9"]) "pro"
           (runtime_down 1700000000123 "7d0c") (serve db_with_sub_1)
           (Error "Failed to create subscription")).
  reflexivity.
Defined.

(** What a call of [createSubscription] that returns has done. *)
Lemma createSubscription_returned services planId rt st result st' :
  createSubscription services planId rt st = (Returned result, st') ->
  exists session u found customer created,
    getSession services = inr session
    /\ session_user session = Some u
    /\ customers_search services
         (String.append "email:'" (String.append (email u) "'")) = inr found
    /\ (found = []
        /\ customers_create services (email u) (user_name u) (user_id u) = inr customer
        /\ stripe_calls st'
           = stripe_calls st
             ++ [ customers_search_call
                    (String.append "email:'" (String.append (email u) "'"));
                  customers_create_call (email u) (user_name u) (user_id u);
                  subscriptions_create_call customer
                    (plan_stripePriceId (plans_get services planId)) ]
        \/ (exists others, found = customer :: others)
           /\ stripe_calls st'
              = stripe_calls st
                ++ [ customers_search_call
                       (String.append "email:'" (String.append (email u) "'"));
                     subscriptions_create_call customer
                       (plan_stripePriceId (plans_get services planId)) ])
    /\ subscriptions_create services customer
         (plan_stripePriceId (plans_get services planId)) = inr created
    /\ result = {| subscriptionId := Subscription.id (created_object created);
                   clientSecret :=
                     match latest_invoice created with
                     | Some {| payment_intent := Some intent |} => client_secret intent
                     | _ => None
                     end |}
    /\ subscriptions_table (db (world st'))
       = subscriptions_table (db (world st))
         ++ [ {| subscriptions.id := randomUUID rt;
                 subscriptions.userId := user_id u;
                 subscriptions.stripeSubscriptionId :=
                   Some (Subscription.id (created_object created));
                 subscriptions.stripeCustomerId := Some customer;
                 subscriptions.stripePriceId :=
                   plan_stripePriceId (plans_get services planId);
                 subscriptions.status := Subscription.status (created_object created);
                 subscriptions.planId := planId;
                 subscriptions.currentPeriodStart :=
                   Some (Subscription.current_period_start (created_object created)
                         * 1000);
                 subscriptions.currentPeriodEnd :=
                   Some (Subscription.current_period_end (created_object created)
                         * 1000);
                 subscriptions.cancelAtPeriodEnd := Some false;
                 subscriptions.createdAt := now rt;
                 subscriptions.updatedAt := now rt |} ]
    /\ existsb (where_stripeSubscriptionId (Subscription.id (created_object created)))
         (subscriptions_table (db (world st))) = false
    /\ invoices_table (db (world st')) = invoices_table (db (world st))
    /\ paymentMethods_table (db (world st')) = paymentMethods_table (db (world st))
    /\ issued (world st') = issued (world st) ++ [Insert T_subscriptions]
    /\ error_log st' = error_log st.
Proof.
  run_action.
  repeat next_answer; intros E; try discriminate E; injection E as <- <-;
    match goal with
    | H : insert_subscription _ _ = inr _ |- _ =>
        unfold insert_subscription in H;
        cbn [subscription_values subscriptions.stripeSubscriptionId] in H;
        destruct (existsb _ _) eqn:Fresh in H; [discriminate H|];
        injection H as <-
    end;
    do 5 eexists;
    (split; [reflexivity|]); (split; [eassumption|]); (split; [eassumption|]);
    (split;
     [first [ left; split; [reflexivity|]; split; [eassumption|];
              cbn [stripe_calls]; rewrite <- !app_assoc; reflexivity
            | right; split; [eexists; reflexivity|];
              cbn [stripe_calls]; rewrite <- !app_assoc; reflexivity ]|]);
    (split; [eassumption|]);
    repeat split; try reflexivity; try exact Fresh;
    unfold latest_client_secret;
    match goal with
    | |- context [latest_invoice ?c] => destruct (latest_invoice c) as [[[?|]]|]
    end; reflexivity.
Qed.

(** X9. When [createSubscription] returns, the user was signed in, Stripe
    answered every call, and the database accepted the insert: the calls
    made to Stripe are the customer search, the creation of a customer
    exactly when the search found none, and the creation of the
    subscription for the first customer found (or the one created); one row
    is appended to the subscriptions table, with the user's id, the ids of
    the Stripe subscription and customer, the plan's price id, the given
    [planId], Stripe's status, the period bounds in milliseconds,
    [cancelAtPeriodEnd] false and both timestamps now; the other tables are
    unchanged; and the result carries the Stripe subscription id and the
    client secret of the latest invoice's payment intent, if any. *)
Theorem createSubscription_returns services planId rt st result st' :
  createSubscription services planId rt st = (Returned result, st') ->
  exists session u found customer created,
    getSession services = inr session
    /\ session_user session = Some u
    /\ customers_search services
         (String.append "email:'" (String.append (email u) "'")) = inr found
    /\ (found = []
        /\ customers_create services (email u) (user_name u) (user_id u) = inr customer
        /\ stripe_calls st'
           = stripe_calls st
             ++ [ customers_search_call
                    (String.append "email:'" (String.append (email u) "'"));
                  customers_create_call (email u) (user_name u) (user_id u);
                  subscriptions_create_call customer
                    (plan_stripePriceId (plans_get services planId)) ]
        \/ (exists others, found = customer :: others)
           /\ stripe_calls st'
              = stripe_calls st
                ++ [ customers_search_call
                       (String.append "email:'" (String.append (email u) "'"));
                     subscriptions_create_call customer
                       (plan_stripePriceId (plans_get services planId)) ])
    /\ subscriptions_create services customer
         (plan_stripePriceId (plans_get services planId)) = inr created
    /\ result = {| subscriptionId := Subscription.id (created_object created);
                   clientSecret :=
                     match latest_invoice created with
                     | Some {| payment_intent := Some intent |} => client_secret intent
                     | _ => None
                     end |}
    /\ subscriptions_table (db (world st'))
       = subscriptions_table (db (world st))
         ++ [ {| subscriptions.id := randomUUID rt;
                 subscriptions.userId := user_id u;
                 subscriptions.stripeSubscriptionId :=
                   Some (Subscription.id (created_object created));
                 subscriptions.stripeCustomerId := Some customer;
                 subscriptions.stripePriceId :=
                   plan_stripePriceId (plans_get services planId);
                 subscriptions.status := Subscription.status (created_object created);
                 subscriptions.planId := planId;
                 subscriptions.currentPeriodStart :=
                   Some (Subscription.current_period_start (created_object created)
                         * 1000);
                 subscriptions.currentPeriodEnd :=
                   Some (Subscription.current_period_end (created_object created)
                         * 1000);
                 subscriptions.cancelAtPeriodEnd := Some false;
                 subscriptions.createdAt := now rt;
                 subscriptions.updatedAt := now rt |} ]
    /\ existsb (where_stripeSubscriptionId (Subscription.id (created_object created)))
         (subscriptions_table (db (world st))) = false
    /\ invoices_table (db (world st')) = invoices_table (db (world st))
    /\ paymentMethods_table (db (world st')) = paymentMethods_table (db (world st))
    /\ issued (world st') = issued (world st) ++ [Insert T_subscriptions]
    /\ error_log st' = error_log st.
Proof. intros C. exact (createSubscription_returned _ _ _ _ _ _ C). Qed.

Lemma createSubscription_returns_witness :
  issued (world (snd (createSubscription (test_services (signed_in alice) []) "pro"
                        (runtime_at 1700000000123 "7d0c") (serve empty_db))))
  = [Insert T_subscriptions]
  /\ subscriptions_table
       (db (world (snd (createSubscription (test_services (signed_in alice) []) "pro"
                          (runtime_at 1700000000123 "7d0c") (serve empty_db)))))
     = [ {| subscriptions.id := "7d0c"; subscriptions.userId := "user_1";
            subscriptions.stripeSubscriptionId := Some "sub_1";
            subscriptions.stripeCustomerId := Some "cus_new";
            subscriptions.stripePriceId := Some "price_pro_monthly";
            subscriptions.status := "incomplete"; subscriptions.planId := "pro";
            subscriptions.currentPeriodStart := Some 1700000000000;
            subscriptions.currentPeriodEnd := Some 1702592000000;
            subscriptions.cancelAtPeriodEnd := Some false;
            subscriptions.createdAt := 1700000000123;
            subscriptions.updatedAt := 1700000000123 |} ].
Proof.
  destruct (createSubscription_returns (test_services (signed_in alice) []) "pro"
              (runtime_at 1700000000123 "7d0c") (serve empty_db)
              {| subscriptionId := "sub_1"; clientSecret := Some "pi_1_secret" |}
              (snd (createSubscription (test_services (signed_in alice) []) "pro"
                      (runtime_at 1700000000123 "7d0c") (serve empty_db))))
    as (session & u & found & customer & created & _ & _ & _ & _ & _ & _ & _ & _
        & _ & _ & I & _); [reflexivity|].
  split; [exact I | reflexivity].
Defined.

(** X10. [createSubscription] does not undo what it did at Stripe: whenever
    the insert is sent and refused (the driver raises, or a row with the
    same provider id is stored), Stripe has already created the
    subscription, no call to Stripe follows that creation, no table has
    changed, and the action throws
    [Error("Failed to create subscription")]. *)
Theorem createSubscription_insert_refused services planId rt st e st' :
  createSubscription services planId rt st = (Thrown e, st') ->
  issued (world st') <> issued (world st) ->
  e = Error "Failed to create subscription"
  /\ db (world st') = db (world st)
  /\ issued (world st') = issued (world st) ++ [Insert T_subscriptions]
  /\ exists calls customer price created cause,
       stripe_calls st' = calls ++ [subscriptions_create_call customer price]
       /\ subscriptions_create services customer price = inr created
       /\ error_log st'
          = error_log st
            ++ [("Error creating subscription:", Raised (DatabaseError cause))].
Proof.
  run_action.
  repeat next_answer; intros E; try discriminate E; injection E as <- <-;
    cbn [world issued stripe_calls error_log db]; intros Sent;
    try (now elim Sent);
    (split; [reflexivity|]); (split; [reflexivity|]); (split; [reflexivity|]);
    do 5 eexists; (split; [reflexivity|]); (split; [eassumption|]); reflexivity.
Qed.

Lemma createSubscription_insert_refused_witness :
  stripe_calls (snd (createSubscription (test_services (signed_in alice) ["cus_9"]) "pro"
                       (runtime_at 1700000000123 "7d0c") (serve db_with_sub_1)))
  = [ customers_search_call "email:'alice@example.com'";
      subscriptions_create_call "cus_9" (Some "price_pro_monthly") ]
  /\ db (world (snd (createSubscription (test_services (signed_in alice) ["cus_9"]) "pro"
                       (runtime_at 1700000000123 "7d0c") (serve db_with_sub_1))))
     = db_with_sub_1.
Proof.
  destruct (createSubscription_insert_refused
              (test_services (signed_in alice) ["cus_9"]) "pro"
              (runtime_at 1700000000123 "7d0c") (serve db_with_sub_1)
              (Error "Failed to create subscription")
              (snd (createSubscription (test_services (signed_in alice) ["cus_9"]) "pro"
                      (runtime_at 1700000000123 "7d0c") (serve db_with_sub_1))))
    as (_ & D & _); [reflexivity | intros H; discriminate H |].
  split; [reflexivity | exact D].
Defined.

Lemma subscriptions_for_app id rows rows' d :
  subscriptions_table d = rows ++ rows' ->
  subscriptions_for id d
  = (List.length (filter (where_stripeSubscriptionId id) rows)
     + List.length (filter (where_stripeSubscriptionId id) rows'))%nat.
Proof.
  intros E. unfold subscriptions_for. rewrite E, filter_app, length_app. reflexivity.
Qed.

(** X11. [createSubscription] keeps the provider ids unique: on a database
    where no two Subscription rows and no two Invoice rows share a provider
    id, none do after the action, whether it returns or throws; and when it
    returns, exactly one row is stored for the subscription id of its
    result. *)
Theorem createSubscription_unique services planId rt st :
  unique_provider_ids (db (world st)) ->
  unique_provider_ids (db (world (snd (createSubscription services planId rt st))))
  /\ (forall result,
        fst (createSubscription services planId rt st) = Returned result ->
        subscriptions_for (subscriptionId result)
          (db (world (snd (createSubscription services planId rt st)))) = 1%nat).
Proof.
  intros [US UI].
  destruct (createSubscription services planId rt st) as [[result|e] st'] eqn:E;
    cbn [fst snd].
  - destruct (createSubscription_returned _ _ _ _ _ _ E)
      as (session & u & found & customer & created & _ & _ & _ & _ & _ & -> & T
          & Fresh & I & _).
    cbn [subscriptionId].
    assert (Count : forall id,
               subscriptions_for id (db (world st'))
               = (subscriptions_for id (db (world st))
                  + (if String.eqb (Subscription.id (created_object created)) id
                     then 1 else 0))%nat).
    { intros id. rewrite (subscriptions_for_app id _ _ _ T).
      unfold subscriptions_for. f_equal. cbn [filter].
      unfold where_stripeSubscriptionId at 1.
      cbn [subscriptions.stripeSubscriptionId eq_col].
      destruct (String.eqb _ id); reflexivity. }
    assert (Zero : subscriptions_for (Subscription.id (created_object created))
                     (db (world st)) = 0%nat).
    { unfold subscriptions_for. now rewrite (filter_none _ _ Fresh). }
    split; [split|].
    + intros id. rewrite Count.
      destruct (String.eqb_spec (Subscription.id (created_object created)) id)
        as [Same|N]; [subst id; rewrite Zero; lia | specialize (US id); lia].
    + intros id. unfold invoices_for. rewrite I. apply UI.
    + intros result [= <-]. cbn [subscriptionId].
      rewrite Count, Zero, String.eqb_refl. reflexivity.
  - rewrite (createSubscription_thrown _ _ _ _ _ _ E).
    split; [split; assumption | intros result H; discriminate H].
Qed.

Lemma createSubscription_unique_witness :
  unique_provider_ids
    (db (world (snd (createSubscription (test_services (signed_in alice) []) "pro"
                       (runtime_at 1700000000123 "7d0c") (serve empty_db))))).
Proof.
  apply (createSubscription_unique (test_services (signed_in alice) []) "pro"
           (runtime_at 1700000000123 "7d0c") (serve empty_db)).
  split; intros id; unfold subscriptions_for, invoices_for; simpl; lia.
Defined.

(** X12. The row that [createSubscription] stores is the row the webhook
    updates: after the action returns, a verified
    [customer.subscription.created] or [customer.subscription.updated] event
    for the subscription id of its result, accepted by the database, leaves
    a row with that provider id, the [id], [userId], [planId] and
    [createdAt] the action gave it, and the status, period end and
    cancellation flag of the event. *)
Theorem created_row_is_updated services planId rt st result st' session u
    stripe req rt2 event s :
  getSession services = inr session ->
  session_user session = Some u ->
  createSubscription services planId rt st = (Returned result, st') ->
  verified stripe req rt2 event ->
  type event = "customer.subscription.created"
  \/ type event = "customer.subscription.updated" ->
  data_object event = SubscriptionObject s ->
  Subscription.id s = subscriptionId result ->
  db_fault rt2 = None ->
  exists r,
    In r (subscriptions_table (db (after stripe req rt2 (world st'))))
    /\ subscriptions.stripeSubscriptionId r = Some (subscriptionId result)
    /\ subscriptions.id r = randomUUID rt
    /\ subscriptions.userId r = user_id u
    /\ subscriptions.planId r = planId
    /\ subscriptions.createdAt r = now rt
    /\ subscriptions.status r = Subscription.status s
    /\ subscriptions.currentPeriodEnd r = Some (Subscription.current_period_end s * 1000)
    /\ subscriptions.cancelAtPeriodEnd r = Some (Subscription.cancel_at_period_end s)
    /\ subscriptions.updatedAt r = now rt2.
Proof.
  intros G U C V T O K F.
  destruct (createSubscription_returned _ _ _ _ _ _ C)
    as (session' & u' & found & customer & created & G' & U' & _ & _ & _ & -> & Tb & _).
  assert (u' = u) as -> by congruence.
  cbn [subscriptionId] in K. unfold after.
  rewrite (POST_subscription_update _ _ _ _ _ _ V T O), F. cbn [snd db sent].
  unfold subscription_updated, on_subscriptions. cbn [subscriptions_table].
  rewrite Tb, update_where_app.
  eexists. split.
  - apply in_or_app. right. unfold update_where. cbn [map]. left. reflexivity.
  - unfold where_stripeSubscriptionId. cbn [subscriptions.stripeSubscriptionId eq_col].
    rewrite <- K, String.eqb_refl. cbn. repeat split.
Qed.

Lemma created_row_is_updated_witness :
  exists r,
    In r (subscriptions_table
            (db (after test_stripe (signed "updated") (runtime_at 1700000100000 "a1")
                   (world (snd (createSubscription
                                  (test_services (signed_in alice) ["cus_9"])
                                  "pro" (runtime_at 1700000000123 "7d0c")
                                  (serve empty_db)))))))
    /\ subscriptions.id r = "7d0c"
    /\ subscriptions.userId r = "user_1"
    /\ subscriptions.status r = "active".
Proof.
  destruct (created_row_is_updated (test_services (signed_in alice) ["cus_9"]) "pro"
              (runtime_at 1700000000123 "7d0c") (serve empty_db)
              {| subscriptionId := "sub_1"; clientSecret := Some "pi_1_secret" |}
              (snd (createSubscription (test_services (signed_in alice) ["cus_9"])
                      "pro" (runtime_at 1700000000123 "7d0c") (serve empty_db)))
              (signed_in alice) alice
              test_stripe (signed "updated") (runtime_at 1700000100000 "a1")
              {| type := "customer.subscription.updated";
                 data_object := SubscriptionObject sub_1 |} sub_1)
    as (r & I & _ & Id & Us & _ & _ & St & _);
    [reflexivity | reflexivity | reflexivity | reflexivity | right; reflexivity
    | reflexivity | reflexivity | reflexivity |].
  exists r. repeat split; assumption.
Defined.

(** ** cancelSubscription *)

Lemma where_after_canceled_now id t r :
  where_stripeSubscriptionId id (set_canceled_now t r) = where_stripeSubscriptionId id r.
Proof. reflexivity. Qed.

(** The state a successful cancellation leaves. *)
Lemma cancelSubscription_state services subscriptionId immediate rt st result st' :
  cancelSubscription services subscriptionId immediate rt st = (Returned result, st') ->
  let now_ := match immediate with Some true => true | _ => false end in
  result = {| success := true |}
  /\ db_fault rt = None
  /\ second_fault services = None
  /\ (if now_
      then subscriptions_cancel services subscriptionId
      else subscriptions_update services subscriptionId true) = inr tt
  /\ st'
     = {| world :=
            {| db := on_subscriptions
                       (update_where (where_stripeSubscriptionId subscriptionId)
                          (if now_ then set_canceled_now (now rt)
                           else set_cancel_at_period_end (now rt)))
                       (db (world st));
               console := console (world st);
               issued := issued (world st)
                         ++ [Select T_subscriptions; Update T_subscriptions] |};
          stripe_calls :=
            stripe_calls st
            ++ [if now_ then subscriptions_cancel_call subscriptionId
                else subscriptions_update_call subscriptionId true];
          error_log := error_log st |}.
Proof.
  run_action.
  repeat next_answer; intros E; try discriminate E; injection E as <- <-;
    repeat match goal with x : unit |- _ => destruct x end;
    cbn zeta; repeat split; try assumption;
    rewrite <- ?app_assoc; reflexivity.
Qed.

(** X13. When [cancelSubscription] returns, it returns [{ success: true }]
    after one call to Stripe, answered, and one UPDATE, accepted.  With
    [immediate] true the call is [subscriptions.cancel] and every row with
    that provider id gets status ['canceled'] and [cancelAtPeriodEnd] false;
    otherwise ([immediate] false or left out) the call is
    [subscriptions.update] with [cancel_at_period_end: true], the rows get
    [cancelAtPeriodEnd] true and keep their status.  In both cases
    [updatedAt] is now, the period bounds and every other column stay, rows
    with another provider id and the other tables are unchanged, and no row
    is deleted. *)
Theorem cancelSubscription_returns services subscriptionId immediate rt st result st' :
  cancelSubscription services subscriptionId immediate rt st = (Returned result, st') ->
  result = {| success := true |}
  /\ stripe_calls st'
     = stripe_calls st
       ++ [match immediate with
           | Some true => subscriptions_cancel_call subscriptionId
           | _ => subscriptions_update_call subscriptionId true
           end]
  /\ issued (world st')
     = issued (world st) ++ [Select T_subscriptions; Update T_subscriptions]
  /\ Forall2
       (fun r r' =>
          if eq_col subscriptionId (subscriptions.stripeSubscriptionId r)
          then
            match immediate with
            | Some true =>
                subscriptions.status r' = "canceled"
                /\ subscriptions.cancelAtPeriodEnd r' = Some false
            | _ =>
                subscriptions.status r' = subscriptions.status r
                /\ subscriptions.cancelAtPeriodEnd r' = Some true
            end
            /\ subscriptions.updatedAt r' = now rt
            /\ subscriptions.currentPeriodStart r' = subscriptions.currentPeriodStart r
            /\ subscriptions.currentPeriodEnd r' = subscriptions.currentPeriodEnd r
            /\ subscription_identity r' = subscription_identity r
          else r' = r)
       (subscriptions_table (db (world st)))
       (subscriptions_table (db (world st')))
  /\ invoices_table (db (world st')) = invoices_table (db (world st))
  /\ paymentMethods_table (db (world st')) = paymentMethods_table (db (world st)).
Proof.
  intros C. destruct (cancelSubscription_state _ _ _ _ _ _ _ C) as (-> & _ & _ & _ & ->).
  cbn [world stripe_calls issued db on_subscriptions subscriptions_table invoices_table
       paymentMethods_table].
  split; [reflexivity|].
  split; [destruct immediate as [[|]|]; reflexivity|].
  split; [reflexivity|].
  split; [|split; reflexivity].
  eapply Forall2_impl; [|apply update_where_rows].
  intros r r' ->. unfold where_stripeSubscriptionId.
  destruct (eq_col subscriptionId (subscriptions.stripeSubscriptionId r)); [|reflexivity].
  destruct immediate as [[|]|]; cbn; repeat split.
Qed.

Lemma cancelSubscription_returns_witness :
  stripe_calls (snd (cancelSubscription (test_services (signed_in alice) []) "sub_1" None
                       (runtime_at 1700000300000 "b1") (serve db_with_sub_1)))
  = [subscriptions_update_call "sub_1" true]
  /\ issued (world (snd (cancelSubscription (test_services (signed_in alice) []) "sub_1"
                           None (runtime_at 1700000300000 "b1") (serve db_with_sub_1))))
     = [Select T_subscriptions; Update T_subscriptions].
Proof.
  destruct (cancelSubscription_returns (test_services (signed_in alice) []) "sub_1" None
              (runtime_at 1700000300000 "b1") (serve db_with_sub_1)
              {| success := true |}
              (snd (cancelSubscription (test_services (signed_in alice) []) "sub_1" None
                      (runtime_at 1700000300000 "b1") (serve db_with_sub_1))))
    as (_ & S & I & _); [reflexivity|].
  split; [exact S | exact I].
Defined.

Lemma filter_where_where services p q rows :
  (forall r, where_where services p q r = true -> q r = true) ->
  existsb q rows = false ->
  filter (where_where services p q) rows = [].
Proof.
  intros B. induction rows as [|r rows IH]; cbn [existsb filter]; [reflexivity|].
  intros H. apply orb_false_iff in H as [Hr Hrows].
  destruct (where_where services p q r) eqn:W; [|auto].
  apply B in W. congruence.
Qed.

(** X14. When no Subscription row has the given provider id,
    [cancelSubscription] for a signed-in user selects nothing and throws
    [Error("Failed to cancel subscription")]: the caller does not see
    ["Subscription not found"], which only goes to the console; Stripe is
    not called and no table changes.  (The select filters at least by the
    provider id, whatever a second [.where] does to the first.) *)
Theorem cancelSubscription_not_found services subscriptionId immediate rt st session u :
  getSession services = inr session ->
  session_user session = Some u ->
  (forall p q r, where_where services p q r = true -> q r = true) ->
  db_fault rt = None ->
  existsb (where_stripeSubscriptionId subscriptionId)
    (subscriptions_table (db (world st))) = false ->
  cancelSubscription services subscriptionId immediate rt st
  = (Thrown (Error "Failed to cancel subscription"),
     {| world := {| db := db (world st); console := console (world st);
                    issued := issued (world st) ++ [Select T_subscriptions] |};
        stripe_calls := stripe_calls st;
        error_log := error_log st
                     ++ [("Error canceling subscription:",
                          Error "Subscription not found")] |}).
Proof.
  intros G U B F N. run_action. rewrite G. cbn. rewrite U, F. cbn.
  rewrite (filter_where_where _ _ _ _ (B _ _) N). reflexivity.
Qed.

Lemma cancelSubscription_not_found_witness :
  fst (cancelSubscription (strict_services (signed_in alice)) "sub_2" (Some true)
         (runtime_at 1700000300000 "b1") (serve db_with_sub_1))
  = Thrown (Error "Failed to cancel subscription")
  /\ stripe_calls
       (snd (cancelSubscription (strict_services (signed_in alice)) "sub_2" (Some true)
               (runtime_at 1700000300000 "b1") (serve db_with_sub_1))) = [].
Proof.
  rewrite (cancelSubscription_not_found (strict_services (signed_in alice)) "sub_2"
             (Some true) (runtime_at 1700000300000 "b1") (serve db_with_sub_1)
             (signed_in alice) alice);
    [split; reflexivity | reflexivity | reflexivity | | reflexivity | reflexivity].
  intros p q r H. cbn in H. apply andb_true_iff in H. apply H.
Defined.

(** X15. When [cancelSubscription] throws, no table has changed, and the
    error is the rejection of [getSession] or [Error("Unauthorized")], with
    nothing done, or else [Error("Failed to cancel subscription")], the
    cause being written to the console. *)
Theorem cancelSubscription_throws services subscriptionId immediate rt st e st' :
  cancelSubscription services subscriptionId immediate rt st = (Thrown e, st') ->
  db (world st') = db (world st)
  /\ ((getSession services = inl e /\ st' = st)
      \/ (e = Error "Unauthorized" /\ st' = st)
      \/ (e = Error "Failed to cancel subscription"
          /\ exists cause,
               error_log st'
               = error_log st ++ [("Error canceling subscription:", cause)])).
Proof.
  run_action.
  repeat next_answer; intros E; try discriminate E; injection E as <- <-;
    (split; [reflexivity|]); cbn [error_log]; eauto 8.
Qed.

Lemma cancelSubscription_throws_witness :
  db (world (snd (cancelSubscription (strict_services (signed_in alice)) "sub_1"
                    (Some true) (runtime_at 1700000300000 "b1") (serve db_with_sub_1))))
  = db_with_sub_1.
Proof.
  apply (cancelSubscription_throws (strict_services (signed_in alice)) "sub_1"
           (Some true) (runtime_at 1700000300000 "b1") (serve db_with_sub_1)
           (Error "Failed to cancel subscription")).
  reflexivity.
Defined.

(** X16. [cancelSubscription] asks Stripe before it writes, and never undoes
    what Stripe did.  Whatever the outcome, it makes at most one call to
    Stripe, for the given subscription id ([subscriptions.cancel] when
    [immediate] is true, [subscriptions.update] otherwise), and only after
    the SELECT was sent; it sends the UPDATE only when Stripe accepted that
    call; and when the UPDATE is then refused, the action throws with the
    tables unchanged although Stripe has been told. *)
Theorem cancelSubscription_stripe_first services subscriptionId immediate rt st :
  let outcome := cancelSubscription services subscriptionId immediate rt st in
  let call := match immediate with
              | Some true => subscriptions_cancel_call subscriptionId
              | _ => subscriptions_update_call subscriptionId true
              end in
  let accepted := match immediate with
                  | Some true => subscriptions_cancel services subscriptionId
                  | _ => subscriptions_update services subscriptionId true
                  end = inr tt in
  (stripe_calls (snd outcome) = stripe_calls st
   /\ (issued (world (snd outcome)) = issued (world st)
       \/ issued (world (snd outcome)) = issued (world st) ++ [Select T_subscriptions]))
  \/ (stripe_calls (snd outcome) = stripe_calls st ++ [call]
      /\ ~ accepted
      /\ issued (world (snd outcome)) = issued (world st) ++ [Select T_subscriptions]
      /\ fst outcome = Thrown (Error "Failed to cancel subscription"))
  \/ (stripe_calls (snd outcome) = stripe_calls st ++ [call]
      /\ accepted
      /\ issued (world (snd outcome))
         = issued (world st) ++ [Select T_subscriptions; Update T_subscriptions]
      /\ ((second_fault services = None /\ fst outcome = Returned {| success := true |})
          \/ (second_fault services <> None
              /\ fst outcome = Thrown (Error "Failed to cancel subscription")
              /\ db (world (snd outcome)) = db (world st)))).
Proof.
  run_action.
  repeat next_answer;
    repeat match goal with x : unit |- _ => destruct x end;
    cbn [fst snd stripe_calls world issued db];
    rewrite <- ?app_assoc; cbn [app];
    first
      [ left; split; [reflexivity|]; first [left; reflexivity | right; reflexivity]
      | right; left; split; [reflexivity|]; split; [intros H; congruence|];
        split; reflexivity
      | right; right; split; [reflexivity|]; split; [reflexivity|];
        split; [reflexivity|];
        first [ left; split; reflexivity
              | right; split; [congruence|]; split; reflexivity ] ].
Qed.

(** X17. The webhook confirms an immediate cancellation: after
    [cancelSubscription] with [immediate] true has returned, a verified
    [customer.subscription.deleted] event for the same subscription id
    changes no column of any Subscription row except [updatedAt], and
    nothing in the other tables. *)
Theorem cancel_then_deleted services subscriptionId rt st result st'
    stripe req rt2 event :
  cancelSubscription services subscriptionId (Some true) rt st = (Returned result, st') ->
  verified stripe req rt2 event ->
  type event = "customer.subscription.deleted" ->
  object_id (data_object event) = subscriptionId ->
  Forall2 same_but_updatedAt
    (subscriptions_table (db (world st')))
    (subscriptions_table (db (after stripe req rt2 (world st'))))
  /\ invoices_table (db (after stripe req rt2 (world st')))
     = invoices_table (db (world st'))
  /\ paymentMethods_table (db (after stripe req rt2 (world st')))
     = paymentMethods_table (db (world st')).
Proof.
  intros C V T K.
  destruct (cancelSubscription_state _ _ _ _ _ _ _ C) as (_ & _ & _ & _ & ->).
  unfold after. rewrite (POST_subscription_deleted _ _ _ _ _ V T), K.
  destruct (db_fault rt2) as [m|]; cbn [fst snd db sent log world].
  - split; [apply Forall2_same_but_updatedAt_refl | split; reflexivity].
  - split; [|split; reflexivity].
    cbn [subscription_canceled on_subscriptions subscriptions_table].
    unfold update_where. rewrite map_map.
    induction (subscriptions_table (db (world st))) as [|r rows IH];
      cbn [map]; constructor; [|exact IH].
    destruct (where_stripeSubscriptionId subscriptionId r) eqn:W.
    + rewrite where_after_canceled_now, W.
      unfold same_but_updatedAt. cbn. repeat split.
    + rewrite W. apply same_but_updatedAt_refl.
Qed.

Lemma cancel_then_deleted_witness :
  Forall2 same_but_updatedAt
    (subscriptions_table
       (db (world (snd (cancelSubscription (test_services (signed_in alice) []) "sub_1"
                          (Some true) (runtime_at 1700000300000 "b1")
                          (serve db_with_sub_1))))))
    (subscriptions_table
       (db (after test_stripe (signed "deleted") (runtime_at 1700000301000 "b2")
              (world (snd (cancelSubscription (test_services (signed_in alice) [])
                             "sub_1" (Some true) (runtime_at 1700000300000 "b1")
                             (serve db_with_sub_1))))))).
Proof.
  apply (cancel_then_deleted (test_services (signed_in alice) []) "sub_1"
           (runtime_at 1700000300000 "b1") (serve db_with_sub_1)
           {| success := true |}
           (snd (cancelSubscription (test_services (signed_in alice) []) "sub_1"
                   (Some true) (runtime_at 1700000300000 "b1") (serve db_with_sub_1)))
           test_stripe (signed "deleted") (runtime_at 1700000301000 "b2")
           {| type := "customer.subscription.deleted";
              data_object := SubscriptionObject sub_1 |});
    reflexivity.
Defined.

Lemma filter_found {R} (p : R -> bool) r rows :
  In r rows -> p r = true -> filter p rows <> [].
Proof.
  intros I P E. assert (In r (filter p rows)) as H by (apply filter_In; auto).
  rewrite E in H. exact H.
Qed.

(** X18. A signed-in user can cancel a subscription of their own: when a
    Subscription row has the user's id and the given provider id, the
    database is up and Stripe accepts the call, [cancelSubscription] returns
    [{ success: true }].  (The select finds at least the rows that satisfy
    both [.where] conditions, whatever the second does to the first.) *)
Theorem cancelSubscription_own services subscriptionId immediate rt st session u r :
  getSession services = inr session ->
  session_user session = Some u ->
  (forall p q r, p r && q r = true -> where_where services p q r = true) ->
  In r (subscriptions_table (db (world st))) ->
  subscriptions.userId r = user_id u ->
  subscriptions.stripeSubscriptionId r = Some subscriptionId ->
  db_fault rt = None ->
  second_fault services = None ->
  match immediate with
  | Some true => subscriptions_cancel services subscriptionId
  | _ => subscriptions_update services subscriptionId true
  end = inr tt ->
  fst (cancelSubscription services subscriptionId immediate rt st)
  = Returned {| success := true |}.
Proof.
  intros G U B I Own Key F F2 Accepted.
  assert (Found : filter (where_where services (where_userId (user_id u))
                            (where_stripeSubscriptionId subscriptionId))
                    (subscriptions_table (db (world st))) <> []).
  { apply (filter_found _ r); [exact I|]. apply B.
    unfold where_userId. rewrite Own, String.eqb_refl. cbn [andb].
    now apply where_stripeSubscriptionId_spec. }
  run_action. rewrite G. cbn. rewrite U, F. cbn.
  destruct (filter _ _) as [|first rest]; [now elim Found|].
  destruct immediate as [[|]|]; cbn; rewrite Accepted; cbn; rewrite F2; reflexivity.
Qed.

Lemma cancelSubscription_own_witness :
  fst (cancelSubscription (test_services (signed_in alice) []) "sub_1" (Some true)
         (runtime_at 1700000300000 "b1") (serve db_with_sub_1))
  = Returned {| success := true |}.
Proof.
  apply (cancelSubscription_own (test_services (signed_in alice) []) "sub_1" (Some true)
           (runtime_at 1700000300000 "b1") (serve db_with_sub_1)
           (signed_in alice) alice row_sub_1);
    try reflexivity.
  - intros p q r H. apply andb_true_iff in H. apply H.
  - left. reflexivity.
Defined.

(** ** Deliveries that are not acknowledged *)

Lemma dispatch_reads_tables event rt w w' :
  db w = db w' ->
  fst (dispatch event rt w) = fst (dispatch event rt w')
  /\ db (snd (dispatch event rt w)) = db (snd (dispatch event rt w')).
Proof.
  intros D. destruct (dispatch_cases event).
  - destruct (data_object event) as [s|i|id]; [|now split..].
    rewrite !handleSubscriptionUpdate_statement. unfold db_execute.
    destruct (db_fault rt); cbn [fst snd db]; rewrite D; split; reflexivity.
  - rewrite !handleSubscriptionDeleted_statement. unfold db_execute.
    destruct (db_fault rt); cbn [fst snd db]; rewrite D; split; reflexivity.
  - destruct (data_object event) as [s|i|id]; [now split| |now split].
    rewrite !handleInvoicePaymentSucceeded_statement. unfold db_execute.
    destruct (db_fault rt); cbn [fst snd db]; rewrite D; split; reflexivity.
  - now split.
  - now split.
Qed.

Lemma POST_reads_tables stripe req rt w w' :
  db w = db w' -> db (after stripe req rt w) = db (after stripe req rt w').
Proof.
  intros D. unfold after.
  destruct (constructEvent stripe (text req)
              (headers_get "stripe-signature" (headers req))
              (STRIPE_WEBHOOK_SECRET rt)) as [error|event] eqn:E.
  - rewrite !(POST_rejected _ _ _ _ _ E). exact D.
  - rewrite !(POST_verified _ _ _ _ _ E).
    destruct (dispatch_reads_tables event rt w w' D) as [R T].
    destruct (dispatch event rt w) as [[[]|e1] w1],
             (dispatch event rt w') as [[[]|e2] w2];
      cbn [fst snd] in *; try discriminate R; exact T.
Qed.

(** X19. Only acknowledged deliveries write: when the answer to a request
    is not 200 (the signature is refused, or the handler raises), every
    table is as it was.  So after a delivery that failed, a redelivery
    leaves the database in the state it would have produced alone: the
    provider's retry needs no repair of a partial write. *)
Theorem unacknowledged_changes_nothing stripe req rt w :
  answer stripe req rt w <> Some 200 ->
  db (after stripe req rt w) = db w
  /\ forall req2 rt2,
       db (after stripe req2 rt2 (after stripe req rt w))
       = db (after stripe req2 rt2 w).
Proof.
  intros A.
  assert (Same : db (after stripe req rt w) = db w).
  { unfold answer, after in *.
    destruct (constructEvent stripe (text req)
                (headers_get "stripe-signature" (headers req))
                (STRIPE_WEBHOOK_SECRET rt)) as [error|event] eqn:E.
    - rewrite (POST_rejected _ _ _ w _ E). reflexivity.
    - rewrite (POST_verified _ _ _ w _ E) in *.
      destruct (dispatch_effect event rt w) as [entry|error|stmt d F|stmt message F];
        cbn [fst snd status response_200] in *;
        first [now elim A | reflexivity]. }
  split; [exact Same|].
  intros req2 rt2. now apply POST_reads_tables.
Qed.

Lemma unacknowledged_changes_nothing_witness :
  db (after test_stripe (signed "paid") (runtime_at 1700000101000 "a2")
        (after test_stripe (signed "paid") (runtime_down 1700000100000 "a1")
           (boot db_with_sub_1)))
  = db (after test_stripe (signed "paid") (runtime_at 1700000101000 "a2")
          (boot db_with_sub_1)).
Proof.
  apply (unacknowledged_changes_nothing test_stripe (signed "paid")
           (runtime_down 1700000100000 "a1") (boot db_with_sub_1)).
  intros H. discriminate H.
Defined.
